(** * comress_video_app: bitrate planning, preset table and job queue

    A shallow embedding of the Python sources
      - [app/presets.py]    (preset table, [get_preset], [list_presets]),
      - [app/utils.py]      ([output_filename], [get_file_size_mb]),
      - [app/compressor.py] ([get_video_info], [compress_video],
                             [_two_pass_encode], [_one_pass_encode]),
      - [app/gui.py]        ([get_target_mb], [choose_file], [worker],
                             [start_workers]),
    followed by the properties of the specification that they decide.

    Python [int] is [Z]; Python [float] is IEEE binary64, taken from the
    standard library's [SpecFloat] with [prec = 53] and [emax = 1024];
    [str] is [string], one [ascii] per code point below 256.  Exceptions
    are values of [exn] carried by [Res]; the file system, the external
    encoder and the prober are explicit. *)

From Stdlib Require Import ZArith Bool List String Ascii Lia.
From Stdlib Require Import SpecFloat PrimFloat FloatOps.
From Stdlib Require Import Decimal DecimalString DecimalPos DecimalZ.
From stdpp Require Import base option list gmap strings fin_sets.

Local Open Scope string_scope.
Local Open Scope Z_scope.
Local Open Scope list_scope.

(** ** Exceptions and results *)

(** The exception classes the modelled code can raise.  All of them derive
    from Python's [Exception]. *)
Inductive exn : Type :=
  | KeyError (msg : string)
  | ValueError (msg : string)
  | ZeroDivisionError
  | OverflowError
  | FileNotFoundError (path : string)
  | SameFileError (path : string)
  | ProbeError (path : string)
  | CalledProcessError (returncode : Z) (cmd : list string).

Inductive Res (A : Type) : Type :=
  | Ok (a : A)
  | Raise (e : exn).
Arguments Ok {A} a.
Arguments Raise {A} e.

Definition res_bind {A B} (r : Res A) (k : A -> Res B) : Res B :=
  match r with
  | Ok a => k a
  | Raise e => Raise e
  end.

Declare Scope res_scope.
Delimit Scope res_scope with res.
Notation "'let?' x ':=' r 'in' k" := (res_bind r (fun x => k))
  (at level 10, x pattern, r at level 100, k at level 200) : res_scope.

(** ** Python numbers *)

Module PyFloat.

Definition prec : Z := 53.
Definition emax : Z := 1024.

Definition float : Type := spec_float.

(** [float(n)] for an [int] n, as in [n * x], [n / x] and [n - x] with a
    float [x]: rounded to nearest, ties to even; an [int] beyond the
    finite range raises [OverflowError]. *)
Definition of_int (n : Z) : Res float :=
  match binary_normalize prec emax n 0 false with
  | S754_infinity _ => Raise OverflowError
  | x => Ok x
  end.

(** [x / y] on floats: a zero divisor raises, everything else is the
    IEEE quotient (an overflow gives an infinity, silently). *)
Definition truediv (x y : float) : Res float :=
  match y with
  | S754_zero _ => Raise ZeroDivisionError
  | _ => Ok (SFdiv prec emax x y)
  end.

Definition mul (x y : float) : float := SFmul prec emax x y.
Definition sub (x y : float) : float := SFsub prec emax x y.
Definition le (x y : float) : bool := SFleb x y.

(** [n / d] for an [int] n and a float [d]. *)
Definition int_truediv_float (n : Z) (d : float) : Res float :=
  (let? x := of_int n in truediv x d)%res.

(** [n * x] for an [int] n and a float [x]. *)
Definition int_mul_float (n : Z) (x : float) : Res float :=
  (let? y := of_int n in Ok (mul y x))%res.

(** [n - x] for an [int] n and a float [x]. *)
Definition int_sub_float (n : Z) (x : float) : Res float :=
  (let? y := of_int n in Ok (sub y x))%res.

(** [a / b] for two [int]s: the correctly rounded quotient. *)
Definition int_truediv (a b : Z) : Res float :=
  match b with
  | Z0 => Raise ZeroDivisionError
  | _ =>
      match a with
      | Z0 => Ok (S754_zero (b <? 0))
      | _ =>
          let sa := a <? 0 in
          let sb := b <? 0 in
          match SFdiv prec emax (S754_finite sa (Z.to_pos (Z.abs a)) 0)
                                (S754_finite sb (Z.to_pos (Z.abs b)) 0) with
          | S754_infinity _ => Raise OverflowError
          | q => Ok q
          end
      end
  end.

(** [int(x)]: truncation towards zero; [nan] and the infinities raise. *)
Definition to_int (x : float) : Res Z :=
  match x with
  | S754_zero _ => Ok 0
  | S754_infinity _ => Raise OverflowError
  | S754_nan => Raise (ValueError "cannot convert float NaN to integer")
  | S754_finite s m e =>
      let a := match e with
               | Zneg p => Z.pos m / 2 ^ Z.pos p
               | _ => Z.pos m * 2 ^ e
               end in
      Ok (if s then - a else a)
  end.

(** The mathematical floor of a finite float; undefined on [nan] and the
    infinities.  Used on the specification side only. *)
Definition floor (x : float) : option Z :=
  match x with
  | S754_zero _ => Some 0
  | S754_infinity _ => None
  | S754_nan => None
  | S754_finite s m e =>
      Some match e with
           | Zneg p => (if s then Z.neg m else Z.pos m) / 2 ^ Z.pos p
           | _ => (if s then Z.neg m else Z.pos m) * 2 ^ e
           end
  end.

(** Float literals of the sources, as the nearest binary64 value. *)
Definition lit_0_2 : float := S754_finite false 7205759403792794 (-55).
Definition lit_1_0 : float := S754_finite false 4503599627370496 (-52).
Definition lit_0_75 : float := S754_finite false 6755399441055744 (-53).
Definition lit_0_5 : float := S754_finite false 4503599627370496 (-53).

End PyFloat.

(** ** Python strings *)

Module PyStr.

(** [str(n)] for an [int]. *)
Definition of_int (n : Z) : string := NilZero.string_of_int (Z.to_int n).

(** Code points below 256 that [str.strip] and [int] treat as white
    space. *)
Definition is_space (c : ascii) : bool :=
  let n := nat_of_ascii c in
  ((9 <=? n) && (n <=? 13) || (28 <=? n) && (n <=? 32)
   || (n =? 133) || (n =? 160))%nat.

Fixpoint lstrip (l : list ascii) : list ascii :=
  match l with
  | c :: l' => if is_space c then lstrip l' else l
  | [] => []
  end.

(** [s.strip()]. *)
Definition strip (s : string) : string :=
  string_of_list_ascii
    (List.rev (lstrip (List.rev (lstrip (list_ascii_of_string s))))).

Definition digit_val (c : ascii) : option Z :=
  let n := nat_of_ascii c in
  if ((48 <=? n) && (n <=? 57))%nat then Some (Z.of_nat n - 48) else None.

(** Decimal digits with single underscores between them, as [int]
    accepts them; [prev] tells whether the previous character was a
    digit. *)
Fixpoint parse_digits (acc : Z) (prev : bool) (l : list ascii) : option Z :=
  match l with
  | [] => if prev then Some acc else None
  | c :: l' =>
      match digit_val c with
      | Some d => parse_digits (10 * acc + d) true l'
      | None =>
          if Ascii.eqb c "_"%char
          then (if prev then parse_digits acc false l' else None)
          else None
      end
  end.

(** [int(s)] for a [str]: [None] stands for [ValueError].  The
    interpreter's optional cap on the number of digits is not
    modelled. *)
Definition to_int (s : string) : option Z :=
  match list_ascii_of_string (strip s) with
  | "+"%char :: l => parse_digits 0 false l
  | "-"%char :: l => Z.opp <$> parse_digits 0 false l
  | l => parse_digits 0 false l
  end.

(** Index of the last occurrence of [c] in [l], counted from [i]. *)
Fixpoint rfind_from (c : ascii) (l : list ascii) (i : nat) : option nat :=
  match l with
  | [] => None
  | x :: l' =>
      match rfind_from c l' (S i) with
      | Some j => Some j
      | None => if Ascii.eqb x c then Some i else None
      end
  end.

(** [s.rfind(c)] with [-1] for a miss. *)
Definition rfind (c : ascii) (l : list ascii) : Z :=
  match rfind_from c l 0 with
  | Some j => Z.of_nat j
  | None => -1
  end.

End PyStr.

(** ** app/presets.py *)

Module Presets.

Record PresetConfig : Type := {
  max_height : Z;
  video_kbps_mult : PyFloat.float;
  crf : Z;
  preset : string
}.

(** The module-level dictionary, in insertion order. *)
Definition PRESETS : list (string * PresetConfig) :=
  [ ("light",  {| max_height := 1080; video_kbps_mult := PyFloat.lit_1_0;
                  crf := 20; preset := "slow" |});
    ("medium", {| max_height := 720; video_kbps_mult := PyFloat.lit_0_75;
                  crf := 23; preset := "slow" |});
    ("strong", {| max_height := 480; video_kbps_mult := PyFloat.lit_0_5;
                  crf := 28; preset := "medium" |}) ].

(** [d[k]] and [k in d] on a dictionary kept as an association list. *)
Fixpoint dict_get {V} (d : list (string * V)) (k : string) : option V :=
  match d with
  | [] => None
  | (k', v) :: d' => if String.eqb k' k then Some v else dict_get d' k
  end.

Definition dict_keys {V} (d : list (string * V)) : list string := d.*1.

(** [repr] of the list of keys, as it appears in the error text. *)
Definition keys_repr : string := "['light', 'medium', 'strong']".

Definition get_preset (preset_name : string) : Res PresetConfig :=
  match dict_get PRESETS preset_name with
  | None =>
      Raise (KeyError ("Unknown preset: " +:+ preset_name
                       +:+ ". Available: " +:+ keys_repr))
  | Some c => Ok c
  end.

Definition list_presets : list string := dict_keys PRESETS.

(** The fixed set of names of the specification. *)
Definition known_presets : list string := ["light"; "medium"; "strong"].

End Presets.

(** ** app/utils.py *)

Module Utils.

(** [os.path.splitext]: the extension starts at the last dot of the last
    path component, leading dots of that component excepted.  The
    separator is [/]; under [os.name == "nt"] the backslash counts as
    well. *)
Fixpoint all_dots (l : list ascii) : bool :=
  match l with
  | [] => true
  | c :: l' => Ascii.eqb c "."%char && all_dots l'
  end.

Definition splitext (os_name p : string) : string * string :=
  let l := list_ascii_of_string p in
  let sepIndex :=
    if String.eqb os_name "nt"
    then Z.max (PyStr.rfind (ascii_of_nat 92) l) (PyStr.rfind "/"%char l)
    else PyStr.rfind "/"%char l in
  let dotIndex := PyStr.rfind "."%char l in
  if sepIndex <? dotIndex then
    let filenameIndex := Z.to_nat (sepIndex + 1) in
    let d := Z.to_nat dotIndex in
    if all_dots (firstn (d - filenameIndex) (skipn filenameIndex l))
    then (p, "")
    else (string_of_list_ascii (firstn d l),
          string_of_list_ascii (skipn d l))
  else (p, "").

(** [f"{base}_{counter}{ext}"] *)
Definition numbered (base ext : string) (counter : Z) : string :=
  base +:+ "_" +:+ PyStr.of_int counter +:+ ext.

Section Exists.
Variable os_name : string.
(** [os.path.exists] on the current file system. *)
Variable path_exists : string -> bool.

(** The [while True] loop of [output_filename], [fuel] iterations of
    it at most. *)
Fixpoint output_filename_loop (base ext : string) (fuel : nat)
    (counter : Z) : option string :=
  match fuel with
  | O => None
  | S fuel' =>
      let new_path := numbered base ext counter in
      if negb (path_exists new_path) then Some new_path
      else output_filename_loop base ext fuel' (counter + 1)
  end.

Definition output_filename_fuel (fuel : nat) (path : string)
    : option string :=
  if negb (path_exists path) then Some path
  else
    let '(base, ext) := splitext os_name path in
    output_filename_loop base ext fuel 1.
End Exists.

End Utils.

(** ** The world outside the interpreter *)

(** External actions, recorded in the order in which they are attempted. *)
Inductive Event : Type :=
  | EvCopy (src dst : string)
  | EvRun (argv : list string)
  | EvRemove (path : string).

(** The file system maps each existing path to its size in bytes. *)
Record World : Type := {
  fs : gmap string Z;
  trace : list Event
}.

Definition M (A : Type) : Type := World -> Res A * World.

Definition ret {A} (a : A) : M A := fun w => (Ok a, w).
Definition raise {A} (e : exn) : M A := fun w => (Raise e, w).
Definition lift {A} (r : Res A) : M A := fun w => (r, w).
Definition bind {A B} (c : M A) (k : A -> M B) : M B :=
  fun w =>
    match c w with
    | (Ok a, w') => k a w'
    | (Raise e, w') => (Raise e, w')
    end.

Notation "x <- c ;; k" := (bind c (fun x => k))
  (at level 100, c at next level, right associativity).
Notation "c ;;; k" := (bind c (fun _ => k))
  (at level 100, right associativity).

Definition emit (ev : Event) : M unit :=
  fun w => (Ok tt, {| fs := fs w; trace := trace w ++ [ev] |}).

Definition os_path_exists (path : string) : M bool :=
  fun w => (Ok (bool_decide (is_Some (fs w !! path))), w).

Definition os_path_getsize (path : string) : M Z :=
  fun w =>
    match fs w !! path with
    | Some n => (Ok n, w)
    | None => (Raise (FileNotFoundError path), w)
    end.

Definition os_remove (path : string) : M unit :=
  emit (EvRemove path) ;;;
  fun w =>
    match fs w !! path with
    | Some _ => (Ok tt, {| fs := delete path (fs w); trace := trace w |})
    | None => (Raise (FileNotFoundError path), w)
    end.

Definition shutil_copy (src dst : string) : M unit :=
  emit (EvCopy src dst) ;;;
  fun w =>
    match fs w !! src with
    | None => (Raise (FileNotFoundError src), w)
    | Some n =>
        if String.eqb src dst then (Raise (SameFileError src), w)
        else (Ok tt, {| fs := <[dst := n]> (fs w); trace := trace w |})
    end.

(** [utils.get_file_size_mb]. *)
Definition get_file_size_mb (filepath : string) : M PyFloat.float :=
  n <- os_path_getsize filepath ;;
  lift (PyFloat.int_truediv n (1024 * 1024)).

(** ** app/compressor.py *)

Module Compressor.

(** What [ffmpeg.probe] returns, after the [int(...)] and [float(...)]
    conversions of its textual fields. *)
Record Stream : Type := {
  codec_type : string;
  width : Z;
  height : Z
}.

Record Probe : Type := {
  streams : list Stream;
  format_duration : PyFloat.float;
  format_bit_rate : option Z
}.

Section External.
Variable os_name : string.
(** The encoder binary: exit status and file system after a run. *)
Variable ffmpeg : list string -> gmap string Z -> Z * gmap string Z.
(** The prober. *)
Variable ffprobe : string -> gmap string Z -> Res Probe.

(** [subprocess.run(cmd, ..., check=True)]. *)
Definition subprocess_run (cmd : list string) : M unit :=
  emit (EvRun cmd) ;;;
  fun w =>
    let '(rc, fs') := ffmpeg cmd (fs w) in
    let w' := {| fs := fs'; trace := trace w |} in
    if rc =? 0 then (Ok tt, w')
    else (Raise (CalledProcessError rc cmd), w').

Definition get_video_info (path : string)
    : M (Z * Z * PyFloat.float * Z * PyFloat.float) :=
  probe <- (fun w => (ffprobe path (fs w), w)) ;;
  match List.find (fun s => String.eqb (codec_type s) "video")
                  (streams probe) with
  | None => raise (ValueError ("No video stream found in " +:+ path))
  | Some video_stream =>
      let width := width video_stream in
      let height := height video_stream in
      let duration := format_duration probe in
      let bitrate := default 0 (format_bit_rate probe) / 1000 in
      size_mb <- get_file_size_mb path ;;
      ret (width, height, duration, bitrate, size_mb)
  end.

Definition cmd_pass1 (input_file scale_filter : string) (video_kbps : Z)
    (preset : string) : list string :=
  let null_device := if String.eqb os_name "nt" then "NUL"
                     else "/dev/null" in
  [ "ffmpeg"; "-y";
    "-i"; input_file;
    "-vf"; scale_filter;
    "-c:v"; "libx264";
    "-b:v"; PyStr.of_int video_kbps +:+ "k";
    "-pass"; "1";
    "-preset"; preset;
    "-an";
    "-f"; "mp4";
    null_device ].

Definition cmd_pass2 (input_file output_file scale_filter : string)
    (video_kbps audio_kbps : Z) (preset : string) : list string :=
  [ "ffmpeg"; "-y";
    "-i"; input_file;
    "-vf"; scale_filter;
    "-c:v"; "libx264";
    "-b:v"; PyStr.of_int video_kbps +:+ "k";
    "-pass"; "2";
    "-preset"; preset;
    "-c:a"; "aac";
    "-b:a"; PyStr.of_int audio_kbps +:+ "k";
    "-movflags"; "+faststart";
    output_file ].

Definition cmd_one_pass (input_file output_file scale_filter : string)
    (video_kbps audio_kbps : Z) (preset : string) : list string :=
  [ "ffmpeg"; "-y";
    "-i"; input_file;
    "-vf"; scale_filter;
    "-c:v"; "libx264";
    "-b:v"; PyStr.of_int video_kbps +:+ "k";
    "-preset"; preset;
    "-c:a"; "aac";
    "-b:a"; PyStr.of_int audio_kbps +:+ "k";
    "-movflags"; "+faststart";
    output_file ].

Definition _two_pass_encode (input_file output_file scale_filter : string)
    (video_kbps audio_kbps : Z) (preset : string) : M unit :=
  subprocess_run (cmd_pass1 input_file scale_filter video_kbps preset) ;;;
  subprocess_run (cmd_pass2 input_file output_file scale_filter
                            video_kbps audio_kbps preset).

Definition _one_pass_encode (input_file output_file scale_filter : string)
    (video_kbps audio_kbps : Z) (preset : string) : M unit :=
  subprocess_run (cmd_one_pass input_file output_file scale_filter
                               video_kbps audio_kbps preset).

Definition logfiles : list string :=
  [ "ffmpeg2pass-0.log"; "ffmpeg2pass-0.log.mbtree" ].

(** [for logfile in ...: if os.path.exists(logfile): os.remove(logfile)] *)
Fixpoint remove_logfiles (l : list string) : M unit :=
  match l with
  | [] => ret tt
  | logfile :: l' =>
      b <- os_path_exists logfile ;;
      (if b : bool then os_remove logfile else ret tt) ;;;
      remove_logfiles l'
  end.

(** [total_kbps] and [video_kbps] of the target-size branch. *)
Definition target_video_kbps (target_mb : Z) (duration : PyFloat.float)
    (audio_kbps : Z) : Res Z :=
  (let? q := PyFloat.int_truediv_float (target_mb * 8192) duration in
   let? total_kbps := PyFloat.to_int q in
   Ok (Z.max (total_kbps - audio_kbps) 300))%res.

(** [video_kbps] of the CRF branch:
    [max(int(src_kbps * mult), 350) if src_kbps else 1200]. *)
Definition quality_video_kbps (src_kbps : Z) (mult : PyFloat.float)
    : Res Z :=
  if src_kbps =? 0 then Ok 1200
  else
    (let? x := PyFloat.int_mul_float src_kbps mult in
     let? k := PyFloat.to_int x in
     Ok (Z.max k 350))%res.

(** [src_size_mb <= (target_mb - 0.2)], under [target_mb is not None]. *)
Definition under_target (src_size_mb : PyFloat.float)
    (target_mb : option Z) : Res bool :=
  match target_mb with
  | None => Ok false
  | Some t =>
      (let? thr := PyFloat.int_sub_float t PyFloat.lit_0_2 in
       Ok (PyFloat.le src_size_mb thr))%res
  end.

(** Truth value of an [Optional[int]], as in [if target_mb:]. *)
Definition truthy (target_mb : option Z) : option Z :=
  match target_mb with
  | Some t => if t =? 0 then None else Some t
  | None => None
  end.

Definition compress_video (input_file output_file preset : string)
    (target_mb : option Z) : M PyFloat.float :=
  preset_config <- lift (Presets.get_preset preset) ;;
  info <- get_video_info input_file ;;
  let '(width, height, duration, src_kbps, src_size_mb) := info in
  let max_height := Presets.max_height preset_config in
  let scale_filter := "scale=-2:" +:+ PyStr.of_int max_height in
  let audio_kbps := 96 in
  skip <- lift (under_target src_size_mb target_mb) ;;
  if skip : bool then
    shutil_copy input_file output_file ;;;
    get_file_size_mb output_file
  else
    match truthy target_mb with
    | Some t =>
        video_kbps <- lift (target_video_kbps t duration audio_kbps) ;;
        _two_pass_encode input_file output_file scale_filter
                         video_kbps audio_kbps
                         (Presets.preset preset_config) ;;;
        remove_logfiles logfiles ;;;
        get_file_size_mb output_file
    | None =>
        video_kbps <- lift (quality_video_kbps src_kbps
                              (Presets.video_kbps_mult preset_config)) ;;
        if negb (src_kbps =? 0) && (src_kbps <=? video_kbps) then
          shutil_copy input_file output_file ;;;
          get_file_size_mb output_file
        else
          _one_pass_encode input_file output_file scale_filter
                           video_kbps audio_kbps
                           (Presets.preset preset_config) ;;;
          get_file_size_mb output_file
    end.

End External.

(** What [compress_video] settles between the probe and its first
    external action (lines 85 to 122), gathered in one function: copy
    the source, encode in two passes, or encode in one pass. *)
Inductive Action : Type :=
  | ActCopy
  | ActTwoPass (video_kbps : Z)
  | ActOnePass (video_kbps : Z).

Definition planned (mult : PyFloat.float) (duration : PyFloat.float)
    (src_kbps : Z) (src_size_mb : PyFloat.float) (target_mb : option Z)
    : Res Action :=
  (let? skip := under_target src_size_mb target_mb in
   if skip : bool then Ok ActCopy
   else
     match truthy target_mb with
     | Some t =>
         let? video_kbps := target_video_kbps t duration 96 in
         Ok (ActTwoPass video_kbps)
     | None =>
         let? video_kbps := quality_video_kbps src_kbps mult in
         if negb (src_kbps =? 0) && (src_kbps <=? video_kbps)
         then Ok ActCopy
         else Ok (ActOnePass video_kbps)
     end)%res.

End Compressor.

(** ** The planner as the specification words it *)

Module Spec.

(** Target-size mode:
    [totalKbps = floor(targetSizeMB * 8192 / durationSeconds)],
    [videoKbps = max(totalKbps - 96, 300)]. *)
Definition target_video_kbps (targetSizeMB : Z)
    (durationSeconds : PyFloat.float) : option Z :=
  match PyFloat.int_truediv_float (targetSizeMB * 8192) durationSeconds with
  | Ok q => totalKbps ← PyFloat.floor q; Some (Z.max (totalKbps - 96) 300)
  | Raise _ => None
  end.

(** Quality mode:
    [videoKbps = max(floor(bitrateKbps * videoBitrateMultiplier), 350)]
    if the source bitrate is known and nonzero, else 1200. *)
Definition quality_video_kbps (bitrateKbps : Z)
    (videoBitrateMultiplier : PyFloat.float) : option Z :=
  if bitrateKbps =? 0 then Some 1200
  else
    match PyFloat.int_mul_float bitrateKbps videoBitrateMultiplier with
    | Ok x => k ← PyFloat.floor x; Some (Z.max k 350)
    | Raise _ => None
    end.

(** [sizeMB <= targetSizeMB - 0.2] *)
Definition within_slack (sizeMB : PyFloat.float) (targetSizeMB : Z) : Prop :=
  exists thr, PyFloat.int_sub_float targetSizeMB PyFloat.lit_0_2 = Ok thr
              /\ PyFloat.le sizeMB thr = true.

(** [sizeMB > targetSizeMB - 0.2]: the copy short-circuit does not
    apply. *)
Definition beyond_slack (sizeMB : PyFloat.float) (targetSizeMB : Z) : Prop :=
  exists thr, PyFloat.int_sub_float targetSizeMB PyFloat.lit_0_2 = Ok thr
              /\ PyFloat.le sizeMB thr = false.

End Spec.

(** ** app/gui.py *)

Module Gui.

(** A queue item: [(input_file, output_file, preset, target_mb)]. *)
Definition Job : Type := string * string * string * option Z.

(** The texts handed to [set_status]. *)
Inductive Status : Type :=
  | StCompressing (preset : string)   (* "Compressing ({preset})..." *)
  | StError (e : exn)                 (* "Error: {str(e)}" *)
  | StIdle                            (* "Idle" *)
  | StNoFile                          (* "Error: No file selected" *)
  | StTargetNotNumber                 (* "Error: Target MB must be a number" *)
  | StPreset (preset : string).       (* "Preset: {preset}" *)

(** The texts handed to [log_msg]. *)
Inductive LogLine : Type :=
  | LogCompressing (job : Job)
  | LogDone (output_file : string) (size_mb : PyFloat.float)
  | LogError (input_file : string) (e : exn)
  | LogNoFile
  | LogTarget (target_mb : option Z).

(** The fields of [CompressorApp].  [ui] tells whether [build_ui] has
    run, that is whether [root], [status_var] and [log] are set;
    [status_calls] and [log_lines] are the updates scheduled on the Tk
    main loop, oldest first; [targetEntry] is the text of the entry
    widget. *)
Record App : Type := {
  task_queue : list Job;
  current_preset : string;
  ui : bool;
  status_calls : list Status;
  log_lines : list LogLine;
  targetEntry : string
}.

Definition set_status (text : Status) (a : App) : App :=
  if ui a then
    {| task_queue := task_queue a; current_preset := current_preset a;
       ui := ui a; status_calls := status_calls a ++ [text];
       log_lines := log_lines a; targetEntry := targetEntry a |}
  else a.

Definition log_msg (text : LogLine) (a : App) : App :=
  if negb (ui a) then a
  else
    {| task_queue := task_queue a; current_preset := current_preset a;
       ui := ui a; status_calls := status_calls a;
       log_lines := log_lines a ++ [text]; targetEntry := targetEntry a |}.

(** [self.task_queue.put(job)] *)
Definition queue_put (job : Job) (a : App) : App :=
  {| task_queue := task_queue a ++ [job];
     current_preset := current_preset a; ui := ui a;
     status_calls := status_calls a; log_lines := log_lines a;
     targetEntry := targetEntry a |}.

Definition set_queue (q : list Job) (a : App) : App :=
  {| task_queue := q;
     current_preset := current_preset a; ui := ui a;
     status_calls := status_calls a; log_lines := log_lines a;
     targetEntry := targetEntry a |}.

Definition set_preset (preset : string) (a : App) : App :=
  set_status (StPreset preset)
    {| task_queue := task_queue a; current_preset := preset; ui := ui a;
       status_calls := status_calls a; log_lines := log_lines a;
       targetEntry := targetEntry a |}.

Definition get_target_mb (a : App) : option Z * App :=
  let raw := PyStr.strip (targetEntry a) in
  if String.eqb raw "" then (None, a)
  else
    match PyStr.to_int raw with
    | Some n => (Some n, a)
    | None => (None, set_status StTargetNotNumber a)
    end.

(** [utils.output_filename] on a file system [files]: the loop is run
    for one more round than there are files. *)
Definition path_exists (files : gmap string Z) (path : string) : bool :=
  bool_decide (is_Some (files !! path)).

Definition output_filename (os_name : string) (files : gmap string Z)
    (path : string) : option string :=
  Utils.output_filename_fuel os_name (path_exists files)
    (S (size files)) path.

(** [choose_file], with [file_path] the answer of the file dialog (empty
    when it was dismissed).  [None] stands for a call that does not
    return. *)
Definition choose_file (os_name : string) (files : gmap string Z)
    (file_path : string) (a : App) : option App :=
  if String.eqb file_path "" then
    Some (log_msg LogNoFile (set_status StNoFile a))
  else
    let output_file :=
      (Utils.splitext os_name file_path).1 +:+ current_preset a
      +:+ "_compressed.mp4" in
    output_file ← output_filename os_name files output_file;
    let '(target_mb, a1) := get_target_mb a in
    let a2 := log_msg (LogTarget target_mb) a1 in
    Some (queue_put (file_path, output_file, current_preset a, target_mb) a2).

(** *** The worker loop *)

Inductive Outcome : Type :=
  | Succeeded (size_mb : PyFloat.float)
  | Failed (e : exn).

Definition outcome_of (r : Res PyFloat.float) : Outcome :=
  match r with
  | Ok size_mb => Succeeded size_mb
  | Raise e => Failed e
  end.

(** The body of [worker] up to the call of [compress_video]. *)
Definition worker_begin (job : Job) (a : App) : App :=
  let '(input_file, output_file, preset, target_mb) := job in
  log_msg (LogCompressing job) (set_status (StCompressing preset) a).

(** The rest of the body, [r] being what [compress_video] returned or
    raised: the [try] and [except Exception] arms, then [finally]. *)
Definition worker_end (job : Job) (r : Res PyFloat.float) (a : App) : App :=
  let '(input_file, output_file, preset, target_mb) := job in
  let a1 :=
    match r with
    | Ok size_mb => log_msg (LogDone output_file size_mb) a
    | Raise e => log_msg (LogError input_file e) (set_status (StError e) a)
    end in
  match task_queue a1 with
  | [] => set_status StIdle a1
  | _ => a1
  end.

(** The application together with its worker threads.  [to_submit] are
    the jobs the front end has still to put on the queue;
    [unfinished_tasks] is the queue's own counter; [workers] holds, per
    thread, the job it took and has not finished ([None]: blocked in
    [get]); [finished] records each completed iteration: the worker,
    the job and how it ended. *)
Record Pool : Type := {
  app : App;
  to_submit : list Job;
  unfinished_tasks : nat;
  workers : list (option Job);
  finished : list (nat * Job * Outcome)
}.

(** [start_workers(count)] on a fresh queue. *)
Definition start_workers (count : nat) (a : App) (jobs : list Job) : Pool :=
  {| app := set_queue [] a; to_submit := jobs; unfinished_tasks := 0;
     workers := replicate count None; finished := [] |}.

(** [compress_video(input_file, output_file, preset, target_mb)] *)
Definition run_job (os_name : string)
    (ffmpeg : list string -> gmap string Z -> Z * gmap string Z)
    (ffprobe : string -> gmap string Z -> Res Compressor.Probe)
    (job : Job) : M PyFloat.float :=
  let '(input_file, output_file, preset, target_mb) := job in
  Compressor.compress_video os_name ffmpeg ffprobe
    input_file output_file preset target_mb.

Section Threads.
Variable os_name : string.
Variable ffmpeg : list string -> gmap string Z -> Z * gmap string Z.
Variable ffprobe : string -> gmap string Z -> Res Compressor.Probe.

(** One atomic step of the system: the front end puts a job; a worker
    blocked in [get] takes the oldest job and starts on it; a worker
    comes back from [compress_video] and finishes its iteration.  The
    file system is shared with the other worker and with the rest of
    the machine, so the world [w] a job runs in is left open. *)
Inductive step : Pool -> Pool -> Prop :=
  | step_put job rest p :
      to_submit p = job :: rest ->
      step p {| app := queue_put job (app p); to_submit := rest;
                unfinished_tasks := S (unfinished_tasks p);
                workers := workers p; finished := finished p |}
  | step_get i job q p :
      workers p !! i = Some None ->
      task_queue (app p) = job :: q ->
      step p {| app := worker_begin job (set_queue q (app p));
                to_submit := to_submit p;
                unfinished_tasks := unfinished_tasks p;
                workers := <[i := Some job]> (workers p);
                finished := finished p |}
  | step_done i job w p :
      workers p !! i = Some (Some job) ->
      let r := (run_job os_name ffmpeg ffprobe job w).1 in
      step p {| app := worker_end job r (app p);
                to_submit := to_submit p;
                unfinished_tasks := pred (unfinished_tasks p);
                workers := <[i := None]> (workers p);
                finished := finished p ++ [(i, job, outcome_of r)] |}.
End Threads.

(** Jobs held by the workers. *)
Definition running (p : Pool) : list Job := omap id (workers p).

Definition jobs_of (l : list (nat * Job * Outcome)) : list Job :=
  (fun x => x.1.2) <$> l.

Definition drained (p : Pool) : Prop :=
  to_submit p = [] /\ task_queue (app p) = [] /\ running p = []
  /\ unfinished_tasks p = 0%nat.

(** What holds of every state the pool reaches on the jobs [jobs]. *)
Definition pool_inv (count : nat) (jobs : list Job) (p : Pool) : Prop :=
  length (workers p) = count
  /\ unfinished_tasks p
     = (length (task_queue (app p)) + length (running p))%nat
  /\ jobs ≡ₚ jobs_of (finished p) ++ running p
              ++ task_queue (app p) ++ to_submit p.

(** Steps that remain: three per job to submit, two per queued job, one
    per running job. *)
Definition steps_left (p : Pool) : nat :=
  3 * length (to_submit p) + 2 * length (task_queue (app p))
  + length (running p).

End Gui.

(** ** Observations on a run *)

(** The events a computation added to the trace. *)
Definition new_events (w w' : World) : list Event :=
  drop (length (trace w)) (trace w').

(** The encoder command lines among the events, in order. *)
Definition runs (evs : list Event) : list (list string) :=
  omap (fun ev => match ev with EvRun argv => Some argv | _ => None end) evs.

(** The file copies among the events, in order. *)
Definition copies (evs : list Event) : list (string * string) :=
  omap (fun ev => match ev with EvCopy s d => Some (s, d) | _ => None end) evs.

(** ** Concrete worlds used in the examples *)

Module Scenario.

(** The argument that follows [flag] on a command line. *)
Fixpoint arg_after (flag : string) (argv : list string) : option string :=
  match argv with
  | x :: rest =>
      if String.eqb x flag then head rest else arg_after flag rest
  | [] => None
  end.

Definition is_pass1 (argv : list string) : bool :=
  bool_decide (arg_after "-pass" argv = Some "1").

(** An encoder whose first pass leaves its statistics files behind and
    succeeds, and whose other runs write the output file. *)
Definition ffmpeg_ok (argv : list string) (files : gmap string Z)
    : Z * gmap string Z :=
  if is_pass1 argv then
    (0, <["ffmpeg2pass-0.log" := 4096]>
          (<["ffmpeg2pass-0.log.mbtree" := 65536]> files))
  else (0, <[List.last argv "" := 1000000]> files).

(** The same encoder, with every run but the first pass failing. *)
Definition ffmpeg_pass2_fails (argv : list string) (files : gmap string Z)
    : Z * gmap string Z :=
  if is_pass1 argv then ffmpeg_ok argv files else (1, files).

Definition f100 : PyFloat.float :=
  Eval vm_compute in binary_normalize PyFloat.prec PyFloat.emax 100 0 false.

(** The binary64 values nearest to 9.7, 9.9 and 20. *)
Definition f9_7 : PyFloat.float := S754_finite false 5460614548186726 (-49).
Definition f9_9 : PyFloat.float := S754_finite false 5573204538870989 (-49).
Definition f20 : PyFloat.float := S754_finite false 5629499534213120 (-48).

(** A 100 s clip with a video stream, probed at [bit_rate] bit/s. *)
Definition probe_of (bit_rate : option Z) : Compressor.Probe :=
  {| Compressor.streams :=
       [ {| Compressor.codec_type := "audio";
            Compressor.width := 0; Compressor.height := 0 |};
         {| Compressor.codec_type := "video";
            Compressor.width := 1920; Compressor.height := 1080 |} ];
     Compressor.format_duration := f100;
     Compressor.format_bit_rate := bit_rate |}.

Definition ffprobe_of (bit_rate : option Z) (path : string)
    (files : gmap string Z) : Res Compressor.Probe :=
  Ok (probe_of bit_rate).

(** A 20 MiB source file and nothing else. *)
Definition world0 : World :=
  {| fs := {[ "in.mp4" := 20971520 ]}; trace := [] |}.

Definition app0 (entry : string) : Gui.App :=
  {| Gui.task_queue := []; Gui.current_preset := "medium";
     Gui.ui := true; Gui.status_calls := []; Gui.log_lines := [];
     Gui.targetEntry := entry |}.

Definition medium : Presets.PresetConfig :=
  {| Presets.max_height := 720; Presets.video_kbps_mult := PyFloat.lit_0_75;
     Presets.crf := 23; Presets.preset := "slow" |}.

(** The events of a run on [world0], with the encoder that succeeds. *)
Definition events_of (bit_rate : Z) (preset : string) (target : option Z)
    : list Event :=
  new_events world0
    (Compressor.compress_video "posix" ffmpeg_ok
       (ffprobe_of (Some bit_rate))
       "in.mp4" "out.mp4" preset target world0).2.

Definition job0 : Gui.Job := ("in.mp4", "out.mp4", "medium", Some 10).

Definition pool_step : Gui.Pool -> Gui.Pool -> Prop :=
  Gui.step "posix" ffmpeg_ok (ffprobe_of (Some 4000000)).

End Scenario.

(** ** Further entry points and observations *)

(** [gui.process_video], run by the thread that [on_button_click]
    starts; [downloaded] is what [download_video(url)] returned or raised
    and [files] the file system after the download.  An exception ends the
    thread; [None] stands for a call that does not return. *)
Definition process_video (os_name : string) (files : gmap string Z)
    (downloaded : Res string) (a : Gui.App) : option (Res Gui.App) :=
  match downloaded with
  | Raise e => Some (Raise e)
  | Ok input_file =>
      let '(base, ext) := Utils.splitext os_name input_file in
      let output_file :=
        base +:+ Gui.current_preset a +:+ "_compressed.mp4" in
      output_file ← Gui.output_filename os_name files output_file;
      let '(target_mb, a1) := Gui.get_target_mb a in
      let a2 := Gui.log_msg (Gui.LogTarget target_mb) a1 in
      Some (Ok (Gui.queue_put
                  (input_file, output_file, Gui.current_preset a, target_mb)
                  a2))
  end.

(** What [get_file_size_mb(path)] returns on the file system [files]. *)
Definition file_size_mb (files : gmap string Z) (path : string)
    : Res PyFloat.float :=
  match files !! path with
  | Some n => PyFloat.int_truediv n (1024 * 1024)
  | None => Raise (FileNotFoundError path)
  end.

(** The file system after the clean-up loop over the names [l], and the
    removals the loop makes on the way. *)
Fixpoint removed (l : list string) (files : gmap string Z)
    : gmap string Z :=
  match l with
  | [] => files
  | p :: l' => removed l' (delete p files)
  end.

Fixpoint removals (l : list string) (files : gmap string Z) : list Event :=
  match l with
  | [] => []
  | p :: l' =>
      (if Gui.path_exists files p then [EvRemove p] else [])
      ++ removals l' (delete p files)
  end.

(** The jobs whose start, and the iterations whose end, the log shows. *)
Definition started (log : list Gui.LogLine) : list Gui.Job :=
  omap (fun l => match l with Gui.LogCompressing j => Some j | _ => None end)
       log.

Definition is_end_line (l : Gui.LogLine) : bool :=
  match l with
  | Gui.LogDone _ _ | Gui.LogError _ _ => true
  | _ => false
  end.

(** The line that ends the iteration on [job] with outcome [o]. *)
Definition end_line (job : Gui.Job) (o : Gui.Outcome) : Gui.LogLine :=
  let '(input_file, output_file, preset, target_mb) := job in
  match o with
  | Gui.Succeeded size_mb => Gui.LogDone output_file size_mb
  | Gui.Failed e => Gui.LogError input_file e
  end.

(** A float above zero: finite or infinite. *)
Definition float_positive (x : PyFloat.float) : Prop :=
  match x with
  | S754_finite false _ _ | S754_infinity false => True
  | _ => False
  end.

(** * Properties *)

(** ** The float literals

    The mantissas and exponents written out in [PyFloat] and [Scenario]
    are the binary64 values of the decimal literals. *)

Example lit_0_2_binary64 :
  Prim2SF 0x1.999999999999ap-3%float = PyFloat.lit_0_2.
Proof. reflexivity. Qed.

Example lit_0_75_binary64 : Prim2SF 0x1.8p-1%float = PyFloat.lit_0_75.
Proof. reflexivity. Qed.

Example lit_0_5_binary64 : Prim2SF 0x1p-1%float = PyFloat.lit_0_5.
Proof. reflexivity. Qed.

Example lit_1_0_binary64 : Prim2SF 0x1p+0%float = PyFloat.lit_1_0.
Proof. reflexivity. Qed.

Example f9_7_binary64 :
  Prim2SF 0x1.3666666666666p+3%float = Scenario.f9_7.
Proof. reflexivity. Qed.

Example f9_9_binary64 :
  Prim2SF 0x1.3cccccccccccdp+3%float = Scenario.f9_9.
Proof. reflexivity. Qed.

(** [9.7] and [9.9] are also the quotients [97 / 10] and [99 / 10], and
    the size of a file of 20 MiB is [20.0]. *)
Example f9_7_quotient :
  PyFloat.int_truediv 97 10 = Ok Scenario.f9_7
  /\ PyFloat.int_truediv 99 10 = Ok Scenario.f9_9
  /\ PyFloat.int_truediv 20971520 (1024 * 1024) = Ok Scenario.f20.
Proof. repeat split; reflexivity. Qed.

(** ** Preset table *)

Section PresetFacts.
Import Presets.

Lemma dict_get_PRESETS_cases (name : string) :
  (name = "light" \/ name = "medium" \/ name = "strong")
  \/ (name <> "light" /\ name <> "medium" /\ name <> "strong"
      /\ dict_get PRESETS name = None).
Proof.
  unfold PRESETS; cbn [dict_get].
  destruct (String.eqb_spec "light" name) as [ <- | H1 ]; [now left; left|].
  destruct (String.eqb_spec "medium" name) as [ <- | H2 ];
    [now left; right; left|].
  destruct (String.eqb_spec "strong" name) as [ <- | H3 ];
    [now left; right; right|].
  right; repeat split; congruence.
Qed.

(** C8.  [get_preset] returns the table's entry for each of [light],
    [medium] and [strong] and raises the unknown-preset [KeyError] for
    every other name; it is a function of the constant table [PRESETS],
    which it reads only; [list_presets] is the list of the known names
    in the table's order. *)
Theorem get_preset_total (name : string) :
  match get_preset name with
  | Ok c => (name ∈ known_presets) /\ ((name, c) ∈ PRESETS)
  | Raise e =>
      (name ∉ known_presets)
      /\ e = KeyError ("Unknown preset: " +:+ name +:+
                       ". Available: ['light', 'medium', 'strong']")
  end
  /\ list_presets = known_presets
  /\ dict_keys PRESETS = known_presets.
Proof.
  split; [|split; reflexivity].
  destruct (dict_get_PRESETS_cases name)
    as [ [ -> | [ -> | -> ] ] | (H1 & H2 & H3 & Hn) ].
  - cbn. split; apply list_elem_of_In; cbn; tauto.
  - cbn. split; apply list_elem_of_In; cbn; tauto.
  - cbn. split; apply list_elem_of_In; cbn; tauto.
  - unfold get_preset. rewrite Hn. split; [|reflexivity].
    unfold known_presets. rewrite list_elem_of_In. cbn. intuition congruence.
Qed.

End PresetFacts.

(** ** Binary64 facts *)

Section FloatFacts.
Import PyFloat.

(** [int] truncates and [floor] rounds down: they agree on the
    non-negative floats, and below zero both are at most zero. *)
Lemma to_int_floor (x : float) (k : Z) :
  floor x = Some k ->
  exists t, to_int x = Ok t /\ k <= t /\ (t = k \/ t <= 0).
Proof.
  destruct x as [s|s| |s m e]; cbn; try discriminate.
  - intros [= <-]. exists 0. split; [reflexivity|lia].
  - intros [= <-]. eexists; split; [reflexivity|].
    destruct e as [|p|p], s; try lia.
    assert (Hd : 0 < 2 ^ Z.pos p) by (apply Z.pow_pos_nonneg; lia).
    pose proof (Z.div_mod (Z.pos m) _ (Z.neq_sym _ _ (Z.lt_neq _ _ Hd))).
    pose proof (Z.div_mod (Z.neg m) _ (Z.neq_sym _ _ (Z.lt_neq _ _ Hd))).
    pose proof (Z.mod_pos_bound (Z.pos m) _ Hd).
    pose proof (Z.mod_pos_bound (Z.neg m) _ Hd).
    assert (0 <= Z.pos m / 2 ^ Z.pos p) by (apply Z.div_pos; lia).
    split; [nia|right; lia].
Qed.

Lemma to_int_defined (x : float) (t : Z) :
  to_int x = Ok t -> exists k, floor x = Some k.
Proof. destruct x; cbn; try discriminate; eauto. Qed.

Lemma floor_defined (x : float) :
  floor x = None -> exists e, to_int x = Raise e.
Proof. destruct x; cbn; try discriminate; eauto. Qed.

End FloatFacts.

(** ** [output_filename] returns *)

Section OutputFilename.

Lemma list_ascii_of_string_app (s t : string) :
  list_ascii_of_string (s +:+ t)
  = list_ascii_of_string s ++ list_ascii_of_string t.
Proof. induction s as [|c s IH]; simpl; [reflexivity|]. now rewrite IH. Qed.

Lemma list_ascii_of_string_inj (s t : string) :
  list_ascii_of_string s = list_ascii_of_string t -> s = t.
Proof.
  intros H. rewrite <- (string_of_list_ascii_of_string s), H.
  apply string_of_list_ascii_of_string.
Qed.

Lemma string_app_inv_tail (s1 s2 t : string) :
  s1 +:+ t = s2 +:+ t -> s1 = s2.
Proof.
  intros H. apply list_ascii_of_string_inj.
  apply (f_equal list_ascii_of_string) in H.
  rewrite !list_ascii_of_string_app in H.
  now apply app_inv_tail in H.
Qed.

Lemma of_int_inj (a b : Z) : PyStr.of_int a = PyStr.of_int b -> a = b.
Proof.
  unfold PyStr.of_int. intros H.
  apply DecimalZ.to_int_inj.
  assert (Hn : forall z, Z.to_int z <> Pos Nil /\ Z.to_int z <> Neg Nil).
  { intros [|p|p]; cbn; split; try discriminate;
      intros [= E]; now apply DecimalPos.Unsigned.to_uint_nonnil in E. }
  apply (f_equal NilZero.int_of_string) in H.
  rewrite !NilZero.isi in H by apply Hn. congruence.
Qed.

Variable os_name : string.
Variable files : gmap string Z.

Local Abbreviation path_exists := (Gui.path_exists files).
Local Abbreviation candidate := Utils.numbered.

Lemma candidate_inj base ext : Inj (=) (=) (candidate base ext).
Proof.
  intros a b H. unfold Utils.numbered in H.
  apply String.app_inj in H. apply String.app_inj in H.
  apply string_app_inv_tail in H. now apply of_int_inj.
Qed.

Lemma output_filename_loop_some base ext fuel counter c :
  counter <= c < counter + Z.of_nat fuel ->
  path_exists (candidate base ext c) = false ->
  is_Some (Utils.output_filename_loop path_exists base ext fuel counter).
Proof.
  revert counter. induction fuel as [|fuel IH]; intros counter Hc Hfree.
  - lia.
  - cbn [Utils.output_filename_loop].
    destruct (path_exists (candidate base ext counter)) eqn:E; cbn.
    + apply IH; [|assumption].
      assert (c <> counter) by (intros ->; congruence). lia.
    + eauto.
Qed.

(** Among [size files + 1] candidate names one is free. *)
Lemma free_candidate base ext :
  exists c, 1 <= c < 1 + Z.of_nat (S (size files))
            /\ path_exists (candidate base ext c) = false.
Proof.
  set (cs := Z.of_nat <$> seq 1 (S (size files))).
  destruct (decide (Forall
              (fun c => path_exists (candidate base ext c) = true) cs))
    as [Hall|Hex].
  - exfalso.
    assert (Hnd : NoDup (candidate base ext <$> cs)).
    { apply NoDup_fmap_2; [apply candidate_inj|].
      apply NoDup_fmap_2; [apply Nat2Z.inj'|apply NoDup_seq]. }
    assert (Hsub : list_to_set (candidate base ext <$> cs) ⊆ dom files).
    { intros x Hx. apply elem_of_list_to_set in Hx.
      apply list_elem_of_fmap in Hx as (c & -> & Hc).
      rewrite Forall_forall in Hall. specialize (Hall c Hc).
      unfold Gui.path_exists in Hall. apply bool_decide_eq_true in Hall.
      now apply elem_of_dom. }
    apply subseteq_size in Hsub.
    rewrite size_list_to_set in Hsub by assumption.
    rewrite size_dom in Hsub.
    unfold cs in Hsub. rewrite !length_fmap, length_seq in Hsub. lia.
  - apply not_Forall_Exists in Hex; [|intros c; apply _].
    apply Exists_exists in Hex as (c & Hc & Hfree).
    exists c. split.
    + unfold cs in Hc. apply list_elem_of_fmap in Hc as (n & -> & Hn).
      apply elem_of_seq in Hn. lia.
    + destruct (path_exists (candidate base ext c)) eqn:E; [|reflexivity].
      exfalso. apply Hfree. exact E.
Qed.

Lemma output_filename_total (path : string) :
  is_Some (Gui.output_filename os_name files path).
Proof.
  unfold Gui.output_filename, Utils.output_filename_fuel.
  destruct (Gui.path_exists files path); cbn [negb];
    [|now eapply mk_is_Some].
  destruct (Utils.splitext os_name path) as [base ext].
  destruct (free_candidate base ext) as (c & Hc & Hfree).
  eapply output_filename_loop_some; eassumption.
Qed.

End OutputFilename.

(** ** Runs of [compress_video] *)

Section CompressFacts.
Import Compressor.
Variable os_name : string.
Variable ffmpeg : list string -> gmap string Z -> Z * gmap string Z.
Variable ffprobe : string -> gmap string Z -> Res Probe.

Lemma new_events_app (w : World) (f : gmap string Z) (evs : list Event) :
  new_events w {| fs := f; trace := trace w ++ evs |} = evs.
Proof. unfold new_events; cbn. apply drop_app_length. Qed.

Lemma new_events_refl (w : World) : new_events w w = [].
Proof. unfold new_events. apply drop_all. Qed.

Lemma get_file_size_mb_world (path : string) (w : World) :
  (get_file_size_mb path w).2 = w.
Proof.
  unfold get_file_size_mb, bind, os_path_getsize, lift.
  now destruct (fs w !! path).
Qed.

Lemma get_video_info_world (path : string) (w : World) :
  (get_video_info ffprobe path w).2 = w.
Proof.
  unfold get_video_info, bind.
  destruct (ffprobe path (fs w)) as [pr|e]; [|reflexivity].
  destruct (List.find _ _); [|reflexivity].
  pose proof (get_file_size_mb_world path w) as H.
  destruct (get_file_size_mb path w) as [[x|e] w']; cbn in *; now subst.
Qed.

Lemma subprocess_run_eq (cmd : list string) (w : World) :
  subprocess_run ffmpeg cmd w
  = (if (ffmpeg cmd (fs w)).1 =? 0 then Ok tt
     else Raise (CalledProcessError (ffmpeg cmd (fs w)).1 cmd),
     {| fs := (ffmpeg cmd (fs w)).2; trace := trace w ++ [EvRun cmd] |}).
Proof.
  unfold subprocess_run, bind, emit; cbn.
  destruct (ffmpeg cmd (fs w)) as [rc f]; cbn.
  now destruct (rc =? 0).
Qed.

Lemma shutil_copy_trace (src dst : string) (w : World) :
  trace (shutil_copy src dst w).2 = trace w ++ [EvCopy src dst].
Proof.
  unfold shutil_copy, bind, emit; cbn.
  destruct (fs w !! src); [|reflexivity].
  now destruct (String.eqb src dst).
Qed.

Lemma remove_logfiles_trace (l : list string) (w : World) :
  exists evs, trace (remove_logfiles l w).2 = trace w ++ evs
              /\ runs evs = [] /\ copies evs = [].
Proof.
  revert w. induction l as [|p l IH]; intros w; cbn.
  - exists []. now rewrite app_nil_r.
  - unfold bind, os_path_exists.
    destruct (bool_decide (is_Some (fs w !! p))) eqn:E.
    + apply bool_decide_eq_true in E as [n Hn].
      unfold os_remove, bind, emit; cbn. rewrite Hn.
      destruct (IH {| fs := delete p (fs w);
                      trace := trace w ++ [EvRemove p] |})
        as (evs & Ht & Hr & Hc).
      exists (EvRemove p :: evs). cbn in Ht. rewrite Ht.
      rewrite <- app_assoc. now repeat split.
    + unfold ret. apply IH.
Qed.

Lemma copy_events (src dst : string) (w0 w : World) :
  trace w = trace w0 ->
  new_events w0 ((shutil_copy src dst ;;; get_file_size_mb dst) w).2
  = [EvCopy src dst].
Proof.
  intros Ht. unfold bind.
  pose proof (shutil_copy_trace src dst w) as Hc.
  destruct (shutil_copy src dst w) as [[[]|e] w1]; cbn in Hc |- *.
  - rewrite get_file_size_mb_world.
    unfold new_events. rewrite Hc, Ht. apply drop_app_length.
  - unfold new_events. rewrite Hc, Ht. apply drop_app_length.
Qed.

(** The events of a run are those of the action that [planned] names. *)
Lemma compress_video_events input output preset target w cfg
    wd h dur kbps size :
  Presets.get_preset preset = Ok cfg ->
  (get_video_info ffprobe input w).1 = Ok (wd, h, dur, kbps, size) ->
  let scale := "scale=-2:" +:+ PyStr.of_int (Presets.max_height cfg) in
  let evs :=
    new_events w (compress_video os_name ffmpeg ffprobe
                    input output preset target w).2 in
  match planned (Presets.video_kbps_mult cfg) dur kbps size target with
  | Raise e => evs = []
  | Ok ActCopy => evs = [EvCopy input output]
  | Ok (ActTwoPass v) =>
      let p1 := cmd_pass1 os_name input scale v (Presets.preset cfg) in
      let p2 := cmd_pass2 input output scale v 96 (Presets.preset cfg) in
      copies evs = []
      /\ runs evs = p1 :: (if (ffmpeg p1 (fs w)).1 =? 0 then [p2] else [])
  | Ok (ActOnePass v) =>
      evs = [EvRun (cmd_one_pass input output scale v 96
                      (Presets.preset cfg))]
  end.
Proof.
  intros Hp Hi scale evs.
  assert (Hevs : evs = new_events w (compress_video os_name ffmpeg ffprobe
                                       input output preset target w).2)
    by reflexivity.
  clearbody evs. revert Hevs.
  unfold compress_video. unfold bind at 1. unfold lift at 1. rewrite Hp.
  unfold bind at 1.
  pose proof (get_video_info_world input w) as Hw.
  destruct (get_video_info ffprobe input w) as [ri wi].
  cbn in Hi, Hw. subst ri wi.
  unfold planned.
  unfold bind at 1. unfold lift at 1.
  destruct (under_target size target) as [[|]|e]; cbn [res_bind].
  - intros ->. now apply copy_events.
  - destruct (truthy target) as [t|].
    + unfold bind at 1. unfold lift at 1.
      destruct (target_video_kbps t dur 96) as [v|e]; cbn [res_bind].
      * fold scale. unfold _two_pass_encode, bind.
        rewrite subprocess_run_eq.
        destruct ((ffmpeg (cmd_pass1 os_name input scale v
                             (Presets.preset cfg)) (fs w)).1 =? 0).
        -- rewrite subprocess_run_eq. cbn [fs trace].
           match goal with
           | |- context [if ?c =? 0 then _ else _] => destruct (c =? 0)
           end.
           ++ match goal with
              | |- context [remove_logfiles ?l ?w1] =>
                  destruct (remove_logfiles_trace l w1)
                    as (evs' & Ht & Hr & Hc);
                  destruct (remove_logfiles l w1) as [[[]|e] w2]
              end; cbn [snd] in Ht |- *.
              ** rewrite get_file_size_mb_world.
                 unfold new_events. rewrite Ht. cbn [trace].
                 rewrite <- !app_assoc, drop_app_length. intros ->. cbn.
                 fold (runs evs') (copies evs'). now rewrite Hr, Hc.
              ** unfold new_events. rewrite Ht. cbn [trace].
                 rewrite <- !app_assoc, drop_app_length. intros ->. cbn.
                 fold (runs evs') (copies evs'). now rewrite Hr, Hc.
           ++ cbn [snd]. unfold new_events. cbn [trace].
              rewrite <- !app_assoc, drop_app_length. now intros ->.
        -- cbn [snd]. rewrite new_events_app. now intros ->.
      * intros ->. apply new_events_refl.
    + unfold bind at 1. unfold lift at 1.
      destruct (quality_video_kbps kbps (Presets.video_kbps_mult cfg))
        as [v|e]; cbn [res_bind].
      * destruct (negb (kbps =? 0) && (kbps <=? v)).
        -- intros ->. now apply copy_events.
        -- fold scale. unfold _one_pass_encode, bind.
           rewrite subprocess_run_eq.
           match goal with
           | |- context [if ?c =? 0 then _ else _] => destruct (c =? 0)
           end.
           ++ rewrite get_file_size_mb_world. intros ->.
              apply new_events_app.
           ++ intros ->. apply new_events_app.
      * intros ->. apply new_events_refl.
  - intros ->. apply new_events_refl.
Qed.

(** A run that fails before the plan is made does nothing. *)
Lemma compress_video_events_early input output preset target w :
  (exists e, Presets.get_preset preset = Raise e)
  \/ (exists e, (get_video_info ffprobe input w).1 = Raise e) ->
  new_events w (compress_video os_name ffmpeg ffprobe
                  input output preset target w).2 = [].
Proof.
  intros H. unfold compress_video. unfold bind at 1. unfold lift at 1.
  destruct (Presets.get_preset preset) as [cfg|e0].
  - destruct H as [[e H]|[e H]]; [discriminate|].
    unfold bind at 1.
    pose proof (get_video_info_world input w) as Hw.
    destruct (get_video_info ffprobe input w) as [ri wi].
    cbn in H, Hw. subst ri wi. apply new_events_refl.
  - apply new_events_refl.
Qed.

End CompressFacts.

(** ** Integers that binary64 holds exactly *)

Section ExactInts.
Import PyFloat.

Lemma digits2_pos_bounds (p : positive) :
  2 ^ (Z.pos (digits2_pos p) - 1) <= Z.pos p < 2 ^ Z.pos (digits2_pos p).
Proof.
  induction p as [p IH|p IH|]; cbn [digits2_pos].
  - rewrite Pos2Z.inj_succ. change (Z.pos p~1) with (2 * Z.pos p + 1).
    replace (Z.succ (Z.pos (digits2_pos p)) - 1)
      with (Z.succ (Z.pos (digits2_pos p) - 1)) by lia.
    rewrite !Z.pow_succ_r by lia. lia.
  - rewrite Pos2Z.inj_succ. change (Z.pos p~0) with (2 * Z.pos p).
    replace (Z.succ (Z.pos (digits2_pos p)) - 1)
      with (Z.succ (Z.pos (digits2_pos p) - 1)) by lia.
    rewrite !Z.pow_succ_r by lia. lia.
  - cbn. lia.
Qed.

Lemma digits2_pos_le (p : positive) (n : Z) :
  0 <= n -> Z.pos p < 2 ^ n -> Z.pos (digits2_pos p) <= n.
Proof.
  intros Hn Hp. pose proof (digits2_pos_bounds p) as [Hlo _].
  destruct (Z_le_gt_dec (Z.pos (digits2_pos p)) n) as [|Hgt]; [assumption|].
  assert (2 ^ n <= 2 ^ (Z.pos (digits2_pos p) - 1))
    by (apply Z.pow_le_mono_r; lia).
  lia.
Qed.

Lemma digits2_pos_iter_xO (p k : positive) :
  digits2_pos (Pos.iter xO p k) = (digits2_pos p + k)%positive.
Proof.
  induction k as [|k IH] using Pos.peano_ind.
  - cbn. lia.
  - rewrite Pos.iter_succ. cbn [digits2_pos]. rewrite IH. lia.
Qed.

Lemma pos_iter_xO_val (p k : positive) :
  Z.pos (Pos.iter xO p k) = Z.pos p * 2 ^ Z.pos k.
Proof.
  induction k as [|k IH] using Pos.peano_ind.
  - cbn. lia.
  - rewrite Pos.iter_succ.
    change (Z.pos (Pos.iter xO p k)~0) with (2 * Z.pos (Pos.iter xO p k)).
    rewrite IH, Pos2Z.inj_succ.
    rewrite Z.pow_succ_r by lia. lia.
Qed.

Lemma shr_fexp_canonical (m : positive) (e : Z) :
  digits2_pos m = 53%positive -> -1074 <= e ->
  shr_fexp prec emax (Z.pos m) e loc_Exact
  = ({| shr_m := Z.pos m; shr_r := false; shr_s := false |}, e).
Proof.
  intros Hd He.
  assert (Hsh : fexp prec emax (Z.pos 53 + e) - e = 0)
    by (unfold fexp, emin, prec, emax; lia).
  unfold shr_fexp. cbn [Zdigits2 shr_record_of_loc].
  now rewrite Hd, Hsh.
Qed.

(** A mantissa of full width at an exponent in range is kept as it is. *)
Lemma binary_round_aux_canonical (s : bool) (m : positive) (e : Z) :
  digits2_pos m = 53%positive -> -1074 <= e <= 971 ->
  binary_round_aux prec emax s (Z.pos m) e loc_Exact = S754_finite s m e.
Proof.
  intros Hd He. unfold binary_round_aux.
  rewrite shr_fexp_canonical by (assumption || lia).
  cbn [shr_m loc_of_shr_record round_nearest_even].
  rewrite shr_fexp_canonical by (assumption || lia).
  cbn [shr_m]. unfold prec, emax.
  destruct (Z.leb_spec e (1024 - 53)); [reflexivity|lia].
Qed.

(** Multiplying by [1.0] changes nothing. *)
Lemma mul_one_exact (s : bool) (m : positive) (e : Z) :
  digits2_pos m = 53%positive -> -1022 <= e <= 971 ->
  mul (S754_finite s m e) lit_1_0 = S754_finite s m e.
Proof.
  intros Hd He. unfold mul, lit_1_0. cbn [SFmul].
  rewrite xorb_false_r, Pos.mul_comm.
  assert (Hm : (4503599627370496 * m)%positive
              = Pos.iter xO m 52) by reflexivity.
  rewrite Hm.
  unfold binary_round_aux.
  unfold shr_fexp at 1. cbn [Zdigits2 shr_record_of_loc].
  rewrite digits2_pos_iter_xO, Hd.
  assert (Hsh : fexp prec emax (Z.pos (53 + 52) + (e + -52)) - (e + -52)
                = 52) by (unfold fexp, emin, prec, emax; lia).
  rewrite Hsh. cbn [shr].
  assert (Hit : SpecFloat.iter_pos shr_1 52
                  {| shr_m := Z.pos (Pos.iter xO m 52);
                     shr_r := false; shr_s := false |}
                = {| shr_m := Z.pos m; shr_r := false; shr_s := false |})
    by reflexivity.
  rewrite Hit. cbn [shr_m loc_of_shr_record round_nearest_even].
  replace (e + -52 + 52) with e by lia.
  rewrite shr_fexp_canonical by (assumption || lia).
  cbn [shr_m]. unfold prec, emax.
  destruct (Z.leb_spec e (1024 - 53)); [reflexivity|lia].
Qed.

(** [float(n)] for [0 < n < 2^53]: a full-width mantissa that stands for
    [n] itself. *)
Lemma of_int_exact (p : positive) :
  Z.pos p < 2 ^ 53 ->
  exists m e,
    of_int (Z.pos p) = Ok (S754_finite false m e)
    /\ digits2_pos m = 53%positive /\ -52 <= e <= 0
    /\ Z.pos m = Z.pos p * 2 ^ (- e).
Proof.
  intros Hp.
  pose proof (digits2_pos_le p 53 ltac:(lia) Hp) as Hd.
  unfold of_int. cbn [binary_normalize]. unfold binary_round.
  assert (Hf : fexp prec emax (Z.pos (digits2_pos p) + 0)
               = Z.pos (digits2_pos p) - 53)
    by (unfold fexp, emin, prec, emax; lia).
  rewrite Hf. unfold shl_align.
  destruct (Z.pos (digits2_pos p) - 53 - 0) as [|k|k] eqn:Ek; [|lia|].
  - assert (Hd53 : digits2_pos p = 53%positive) by lia.
    replace (Z.pos (digits2_pos p) - 53) with 0 in * by lia.
    exists p, 0.
    rewrite binary_round_aux_canonical by (assumption || lia).
    repeat split; try lia.
  - assert (Hd53 : digits2_pos (Pos.iter xO p k) = 53%positive)
      by (rewrite digits2_pos_iter_xO; lia).
    exists (Pos.iter xO p k), (Z.pos (digits2_pos p) - 53).
    rewrite binary_round_aux_canonical by (assumption || lia).
    repeat split; try lia.
    rewrite pos_iter_xO_val. f_equal. f_equal. lia.
Qed.

Lemma to_int_exact (m : positive) (e n : Z) :
  -52 <= e <= 0 -> Z.pos m = n * 2 ^ (- e) ->
  to_int (S754_finite false m e) = Ok n.
Proof.
  intros He Hm. cbn [to_int]. f_equal.
  destruct e as [|k|k]; [|lia|].
  - cbn in Hm. lia.
  - cbn [Z.opp] in Hm. rewrite Hm. apply Z.div_mul.
    apply Z.pow_nonzero; lia.
Qed.

(** At multiplier [1.0] an integer of at most 53 bits comes back
    unchanged from [int(src_kbps * mult)]. *)
Lemma quality_video_kbps_light (n : Z) :
  0 < n <= 2 ^ 53 ->
  Compressor.quality_video_kbps n lit_1_0 = Ok (Z.max n 350).
Proof.
  intros Hn.
  destruct (Z.eq_dec n (2 ^ 53)) as [->|Hne]; [reflexivity|].
  destruct n as [|p|p]; try lia.
  destruct (of_int_exact p ltac:(lia)) as (m & e & Ho & Hd & He & Hv).
  unfold Compressor.quality_video_kbps.
  cbn [Z.eqb]. unfold int_mul_float. rewrite Ho. cbn [res_bind].
  rewrite mul_one_exact by (assumption || lia).
  now rewrite (to_int_exact m e (Z.pos p)) by assumption.
Qed.

End ExactInts.

(** ** The planner *)

Section PlannerClaims.
Import Compressor.
Variable os_name : string.
Variable ffmpeg : list string -> gmap string Z -> Z * gmap string Z.
Variable ffprobe : string -> gmap string Z -> Res Probe.

(** The code truncates where the specification takes the floor; under
    the [max] the two cannot be told apart. *)
Lemma target_kbps_agree (t : Z) (dur : PyFloat.float) (v : Z) :
  Spec.target_video_kbps t dur = Some v
  <-> target_video_kbps t dur 96 = Ok v.
Proof.
  unfold Spec.target_video_kbps, target_video_kbps.
  destruct (PyFloat.int_truediv_float (t * 8192) dur) as [q|e];
    cbn [res_bind]; [|split; discriminate].
  destruct (PyFloat.floor q) as [k|] eqn:Ek; cbn.
  - destruct (to_int_floor q k Ek) as (n & -> & Hle & Hor). cbn.
    split; intros [= <-]; f_equal; lia.
  - destruct (floor_defined q Ek) as [e ->]. cbn. split; discriminate.
Qed.

Lemma quality_kbps_agree (b : Z) (mult : PyFloat.float) (v : Z) :
  Spec.quality_video_kbps b mult = Some v
  <-> quality_video_kbps b mult = Ok v.
Proof.
  unfold Spec.quality_video_kbps, quality_video_kbps.
  destruct (b =? 0); [split; congruence|].
  destruct (PyFloat.int_mul_float b mult) as [x|e];
    cbn [res_bind]; [|split; discriminate].
  destruct (PyFloat.floor x) as [k|] eqn:Ek; cbn.
  - destruct (to_int_floor x k Ek) as (n & -> & Hle & Hor). cbn.
    split; intros [= <-]; f_equal; lia.
  - destruct (floor_defined x Ek) as [e ->]. cbn. split; discriminate.
Qed.

Lemma truthy_nonzero (t : Z) : t <> 0 -> truthy (Some t) = Some t.
Proof. intros H. cbn. now destruct (Z.eqb_spec t 0). Qed.

Lemma under_target_beyond (size : PyFloat.float) (t : Z) :
  Spec.beyond_slack size t <-> under_target size (Some t) = Ok false.
Proof.
  unfold Spec.beyond_slack, under_target.
  destruct (PyFloat.int_sub_float t PyFloat.lit_0_2) as [thr|e]; cbn.
  - split.
    + now intros (? & [= <-] & ->).
    + intros [= H]. eauto.
  - split; [ now intros (? & ? & ?) | discriminate ].
Qed.

Lemma under_target_within (size : PyFloat.float) (t : Z) :
  Spec.within_slack size t <-> under_target size (Some t) = Ok true.
Proof.
  unfold Spec.within_slack, under_target.
  destruct (PyFloat.int_sub_float t PyFloat.lit_0_2) as [thr|e]; cbn.
  - split.
    + now intros (? & [= <-] & ->).
    + intros [= H]. eauto.
  - split; [ now intros (? & ? & ?) | discriminate ].
Qed.

(** C3, amended.  When [target_mb] is given and is not zero and the
    source is more than 0.2 MB above it, every run of the encoder is a
    pass of a two-pass encode at
    [max(floor(target_mb * 8192 / duration) - 96, 300)] kbit/s: the first
    pass, then, if that one succeeded, the second; nothing is copied.
    For 100 s and 10 MB the bitrate is 723. *)
Theorem target_size_two_pass input output preset t w cfg
    wd h dur kbps size v :
  Presets.get_preset preset = Ok cfg ->
  (get_video_info ffprobe input w).1 = Ok (wd, h, dur, kbps, size) ->
  t <> 0 ->
  Spec.beyond_slack size t ->
  Spec.target_video_kbps t dur = Some v ->
  let scale := "scale=-2:" +:+ PyStr.of_int (Presets.max_height cfg) in
  let evs :=
    new_events w (compress_video os_name ffmpeg ffprobe
                    input output preset (Some t) w).2 in
  let p1 := cmd_pass1 os_name input scale v (Presets.preset cfg) in
  let p2 := cmd_pass2 input output scale v 96 (Presets.preset cfg) in
  (copies evs = []
   /\ runs evs = p1 :: (if (ffmpeg p1 (fs w)).1 =? 0 then [p2] else []))
  /\ Spec.target_video_kbps 10 Scenario.f100 = Some 723.
Proof.
  intros Hp Hi Ht Hb Hv scale evs p1 p2. split; [|reflexivity].
  pose proof (compress_video_events os_name ffmpeg ffprobe
                input output preset (Some t) w cfg wd h dur kbps size
                Hp Hi) as H.
  cbv zeta in H. unfold planned in H.
  apply under_target_beyond in Hb. rewrite Hb in H. cbn [res_bind] in H.
  rewrite (truthy_nonzero t Ht) in H.
  apply target_kbps_agree in Hv. rewrite Hv in H. exact H.
Qed.

(** C4.  Whatever the inputs, each command line handed to the encoder
    carries a video bitrate of at least 300 kbit/s when [target_mb] is
    given and of at least 350 kbit/s when it is not. *)
Theorem video_kbps_floor input output preset target w :
  Forall
    (fun argv =>
       exists scale v p,
         (argv = cmd_pass1 os_name input scale v p
          \/ argv = cmd_pass2 input output scale v 96 p
          \/ argv = cmd_one_pass input output scale v 96 p)
         /\ match target with Some _ => 300 | None => 350 end <= v)
    (runs (new_events w (compress_video os_name ffmpeg ffprobe
                           input output preset target w).2)).
Proof.
  destruct (Presets.get_preset preset) as [cfg|e] eqn:Hp;
    [|rewrite compress_video_events_early by eauto; constructor].
  destruct (get_video_info ffprobe input w).1
    as [[[[[wd h] dur] kbps] size]|e] eqn:Hi;
    [|rewrite compress_video_events_early by eauto; constructor].
  pose proof (compress_video_events os_name ffmpeg ffprobe
                input output preset target w cfg wd h dur kbps size
                Hp Hi) as H.
  cbv zeta in H.
  destruct (planned _ dur kbps size target) as [[|v|v]|e] eqn:Epl.
  - rewrite H. constructor.
  - destruct H as [_ ->].
    assert (Hv : target <> None /\ 300 <= v).
    { unfold planned in Epl.
      destruct (under_target size target) as [[|]|]; try discriminate.
      cbn [res_bind] in Epl.
      destruct target as [t|]; cbn [truthy] in Epl.
      - split; [discriminate|].
        destruct (t =? 0).
        + destruct (quality_video_kbps _ _); cbn in Epl;
            [destruct (_ && _)|]; discriminate.
        + unfold target_video_kbps in Epl.
          destruct (PyFloat.int_truediv_float _ _); [|discriminate].
          cbn [res_bind] in Epl.
          destruct (PyFloat.to_int _); [|discriminate].
          cbn in Epl. injection Epl as <-. lia.
      - destruct (quality_video_kbps _ _); cbn in Epl;
          [destruct (_ && _)|]; discriminate. }
    destruct Hv as [Hsome Hv].
    assert (Hb : match target with Some _ => 300 | None => 350 end <= v)
      by (destruct target; [assumption|congruence]).
    constructor; [eauto 10|].
    destruct (_ =? 0); constructor; [eauto 10|constructor].
  - rewrite H. cbn.
    assert (Hv : 350 <= v).
    { unfold planned in Epl.
      destruct (under_target size target) as [[|]|]; try discriminate.
      cbn [res_bind] in Epl.
      assert (Hq : forall m,
                 res_bind (quality_video_kbps kbps m)
                   (fun video_kbps =>
                      if negb (kbps =? 0) && (kbps <=? video_kbps)
                      then Ok ActCopy else Ok (ActOnePass video_kbps))
                 = Ok (ActOnePass v) -> 350 <= v).
      { intros m. unfold quality_video_kbps.
        destruct (kbps =? 0); cbn.
        - intros [= <-]. lia.
        - destruct (PyFloat.int_mul_float kbps m); [|discriminate].
          cbn [res_bind]. destruct (PyFloat.to_int _); [|discriminate].
          cbn [res_bind]. destruct (_ <=? _); [discriminate|].
          intros [= <-]. lia. }
      destruct (truthy target); [|now apply Hq in Epl].
      destruct (target_video_kbps _ _ _); discriminate. }
    constructor; [|constructor].
    eexists _, v, _. split; [right; right; reflexivity|].
    destruct target; lia.
  - rewrite H. constructor.
Qed.

(** C5, amended.  When [target_mb] is given and is not zero, the run
    consists of the one file copy, with no encoder run, if and only if
    the source size is at most [target_mb - 0.2] (in binary64
    arithmetic).  At 10 MB, a source of 9.7 MB is copied and one of
    9.9 MB is not. *)
Theorem target_size_copy_iff input output preset t w cfg
    wd h dur kbps size :
  Presets.get_preset preset = Ok cfg ->
  (get_video_info ffprobe input w).1 = Ok (wd, h, dur, kbps, size) ->
  t <> 0 ->
  (new_events w (compress_video os_name ffmpeg ffprobe
                   input output preset (Some t) w).2
     = [EvCopy input output]
   <-> Spec.within_slack size t)
  /\ Spec.within_slack Scenario.f9_7 10
  /\ ~ Spec.within_slack Scenario.f9_9 10.
Proof.
  intros Hp Hi Ht. split; [|split].
  - pose proof (compress_video_events os_name ffmpeg ffprobe
                  input output preset (Some t) w cfg wd h dur kbps size
                  Hp Hi) as H.
    cbv zeta in H. unfold planned in H.
    rewrite under_target_within.
    destruct (under_target size (Some t)) as [[|]|e]; cbn [res_bind] in H.
    + now split.
    + rewrite (truthy_nonzero t Ht) in H.
      destruct (target_video_kbps t dur 96) as [v|e]; cbn [res_bind] in H.
      * destruct H as [Hc _]. split; [|discriminate].
        intros E. rewrite E in Hc. discriminate.
      * rewrite H. split; discriminate.
    + rewrite H. split; discriminate.
  - eexists. split; reflexivity.
  - intros (thr & Hthr & Hle). vm_compute in Hthr.
    injection Hthr as <-. vm_compute in Hle. discriminate.
Qed.

(** C6.  Without [target_mb], for a source whose bitrate is not zero and
    with [video_kbps] the bitrate computed for it: if the source bitrate
    is at most [video_kbps] the run consists of the one file copy and the
    encoder is not run; otherwise it consists of the one single-pass
    encoder run at [video_kbps]. *)
Theorem quality_mode_copy_or_encode input output preset w cfg
    wd h dur kbps size v :
  Presets.get_preset preset = Ok cfg ->
  (get_video_info ffprobe input w).1 = Ok (wd, h, dur, kbps, size) ->
  kbps <> 0 ->
  Spec.quality_video_kbps kbps (Presets.video_kbps_mult cfg) = Some v ->
  let scale := "scale=-2:" +:+ PyStr.of_int (Presets.max_height cfg) in
  new_events w (compress_video os_name ffmpeg ffprobe
                  input output preset None w).2
  = if kbps <=? v then [EvCopy input output]
    else [EvRun (cmd_one_pass input output scale v 96
                   (Presets.preset cfg))].
Proof.
  intros Hp Hi Hk Hv scale.
  pose proof (compress_video_events os_name ffmpeg ffprobe
                input output preset None w cfg wd h dur kbps size
                Hp Hi) as H.
  cbv zeta in H. unfold planned in H. cbn [under_target res_bind truthy] in H.
  apply quality_kbps_agree in Hv. rewrite Hv in H. cbn [res_bind] in H.
  destruct (Z.eqb_spec kbps 0) as [|_]; [contradiction|].
  cbn [negb andb] in H. now destruct (kbps <=? v).
Qed.

(** C7.  The bitrate computed without [target_mb] is the one the
    specification words: 1200 when the source bitrate is zero, whatever
    the multiplier, and [max(floor(src_kbps * mult), 350)] otherwise,
    for every multiplier; it is undefined exactly when the product is
    not a finite float. *)
Theorem quality_video_kbps_spec (src_kbps : Z) (mult : PyFloat.float) :
  (forall v, quality_video_kbps src_kbps mult = Ok v
             <-> Spec.quality_video_kbps src_kbps mult = Some v)
  /\ quality_video_kbps 0 mult = Ok 1200
  /\ (src_kbps <> 0 ->
      Spec.quality_video_kbps src_kbps mult
      = match PyFloat.int_mul_float src_kbps mult with
        | Ok x => (fun k => Z.max k 350) <$> PyFloat.floor x
        | Raise _ => None
        end).
Proof.
  split; [|split].
  - intros v. symmetry. apply quality_kbps_agree.
  - reflexivity.
  - intros H. unfold Spec.quality_video_kbps.
    destruct (Z.eqb_spec src_kbps 0) as [|_]; [contradiction|].
    destruct (PyFloat.int_mul_float src_kbps mult) as [x|e]; [|reflexivity].
    now destruct (PyFloat.floor x).
Qed.

(** C10, amended.  With the [light] preset and no [target_mb], a source
    whose bitrate is positive and at most [2^53] kbit/s is copied and
    never handed to the encoder. *)
Theorem light_preset_copies input output w wd h dur kbps size :
  (get_video_info ffprobe input w).1 = Ok (wd, h, dur, kbps, size) ->
  0 < kbps <= 2 ^ 53 ->
  new_events w (compress_video os_name ffmpeg ffprobe
                  input output "light" None w).2
  = [EvCopy input output].
Proof.
  intros Hi Hk.
  pose proof (compress_video_events os_name ffmpeg ffprobe
                input output "light" None w _ wd h dur kbps size
                eq_refl Hi) as H.
  cbv zeta in H. unfold planned in H.
  cbn [under_target res_bind truthy Presets.video_kbps_mult] in H.
  rewrite (quality_video_kbps_light kbps Hk) in H. cbn [res_bind] in H.
  destruct (Z.eqb_spec kbps 0) as [|_]; [lia|].
  destruct (Z.leb_spec kbps (Z.max kbps 350)) as [_|]; [|lia].
  exact H.
Qed.

End PlannerClaims.

(** ** The claims on concrete worlds *)

Section Concrete.
Import Compressor Scenario.

(** A 20 MiB source of 100 s and a target of 10 MB: both passes run at
    723 kbit/s. *)
Lemma target_size_two_pass_witness :
  Presets.get_preset "medium" = Ok medium
  /\ (get_video_info (ffprobe_of (Some 4000000)) "in.mp4" world0).1
     = Ok (1920, 1080, f100, 4000, f20)
  /\ Spec.beyond_slack f20 10
  /\ Spec.target_video_kbps 10 f100 = Some 723
  /\ runs (events_of 4000000 "medium" (Some 10))
     = [ cmd_pass1 "posix" "in.mp4" "scale=-2:720" 723 "slow";
         cmd_pass2 "in.mp4" "out.mp4" "scale=-2:720" 723 96 "slow" ].
Proof.
  assert (H1 : Presets.get_preset "medium" = Ok medium) by reflexivity.
  assert (H2 : (get_video_info (ffprobe_of (Some 4000000)) "in.mp4"
                  world0).1 = Ok (1920, 1080, f100, 4000, f20))
    by (vm_compute; reflexivity).
  assert (H3 : Spec.beyond_slack f20 10)
    by (eexists; split; reflexivity).
  assert (H4 : Spec.target_video_kbps 10 f100 = Some 723) by reflexivity.
  pose proof (target_size_two_pass "posix" ffmpeg_ok
                (ffprobe_of (Some 4000000)) "in.mp4" "out.mp4"
                "medium" 10 world0 medium 1920 1080 f100 4000
                f20 723 H1 H2 ltac:(discriminate) H3 H4) as [[_ H] _].
  vm_compute in H.
  split; [exact H1|]. split; [exact H2|]. split; [exact H3|].
  split; [exact H4|]. vm_compute. exact H.
Defined.

(** C3 as stated fails when the target is the number zero: the source
    is above the slack and the formula gives 300, yet the one encoder
    run is a single pass at 3000 kbit/s. *)
Lemma target_zero_not_two_pass :
  (get_video_info (ffprobe_of (Some 4000000)) "in.mp4" world0).1
    = Ok (1920, 1080, f100, 4000, f20)
  /\ Spec.beyond_slack f20 0
  /\ Spec.target_video_kbps 0 f100 = Some 300
  /\ runs (events_of 4000000 "medium" (Some 0))
     = [ cmd_one_pass "in.mp4" "out.mp4" "scale=-2:720" 3000 96 "slow" ]
  /\ runs (events_of 4000000 "medium" (Some 0))
     <> [ cmd_pass1 "posix" "in.mp4" "scale=-2:720" 300 "slow";
          cmd_pass2 "in.mp4" "out.mp4" "scale=-2:720" 300 96 "slow" ].
Proof.
  split; [vm_compute; reflexivity|].
  split; [eexists; split; reflexivity|].
  split; [reflexivity|].
  split; [vm_compute; reflexivity|].
  vm_compute. discriminate.
Qed.

(** The same source and a target of 25 MB. *)
Lemma target_size_copy_iff_witness :
  Presets.get_preset "medium" = Ok medium
  /\ (get_video_info (ffprobe_of (Some 4000000)) "in.mp4" world0).1
     = Ok (1920, 1080, f100, 4000, f20)
  /\ (events_of 4000000 "medium" (Some 25) = [EvCopy "in.mp4" "out.mp4"]
      <-> Spec.within_slack f20 25).
Proof.
  assert (H1 : Presets.get_preset "medium" = Ok medium) by reflexivity.
  assert (H2 : (get_video_info (ffprobe_of (Some 4000000)) "in.mp4"
                  world0).1 = Ok (1920, 1080, f100, 4000, f20))
    by (vm_compute; reflexivity).
  split; [exact H1|]. split; [exact H2|].
  exact (proj1 (target_size_copy_iff "posix" ffmpeg_ok
                  (ffprobe_of (Some 4000000)) "in.mp4" "out.mp4"
                  "medium" 25 world0 medium 1920 1080 f100 4000 f20
                  H1 H2 ltac:(discriminate))).
Defined.

(** C5 as stated fails when the target is the number zero: the source
    is not within the slack, and yet it is copied, by the branch that
    serves the runs without a target. *)
Lemma target_zero_copies :
  (get_video_info (ffprobe_of (Some 500000)) "in.mp4" world0).1
    = Ok (1920, 1080, f100, 500, f20)
  /\ ~ Spec.within_slack f20 0
  /\ events_of 500000 "light" (Some 0) = [EvCopy "in.mp4" "out.mp4"].
Proof.
  split; [vm_compute; reflexivity|]. split; [|vm_compute; reflexivity].
  intros (thr & Hthr & Hle). vm_compute in Hthr.
  injection Hthr as <-. vm_compute in Hle. discriminate.
Qed.

(** The same source at 4000 kbit/s under [medium]: one pass at
    3000 kbit/s. *)
Lemma quality_mode_copy_or_encode_witness :
  Presets.get_preset "medium" = Ok medium
  /\ (get_video_info (ffprobe_of (Some 4000000)) "in.mp4" world0).1
     = Ok (1920, 1080, f100, 4000, f20)
  /\ Spec.quality_video_kbps 4000 PyFloat.lit_0_75 = Some 3000
  /\ events_of 4000000 "medium" None
     = [EvRun (cmd_one_pass "in.mp4" "out.mp4" "scale=-2:720" 3000 96
                 "slow")].
Proof.
  assert (H1 : Presets.get_preset "medium" = Ok medium) by reflexivity.
  assert (H2 : (get_video_info (ffprobe_of (Some 4000000)) "in.mp4"
                  world0).1 = Ok (1920, 1080, f100, 4000, f20))
    by (vm_compute; reflexivity).
  assert (H3 : Spec.quality_video_kbps 4000 PyFloat.lit_0_75 = Some 3000)
    by reflexivity.
  pose proof (quality_mode_copy_or_encode "posix" ffmpeg_ok
                (ffprobe_of (Some 4000000)) "in.mp4" "out.mp4" "medium"
                world0 medium 1920 1080 f100 4000 f20 3000
                H1 H2 ltac:(discriminate) H3) as H.
  vm_compute in H.
  split; [exact H1|]. split; [exact H2|]. split; [exact H3|].
  vm_compute. exact H.
Defined.

(** The same source at 4000 kbit/s under [light]: copied. *)
Lemma light_preset_copies_witness :
  (get_video_info (ffprobe_of (Some 4000000)) "in.mp4" world0).1
    = Ok (1920, 1080, f100, 4000, f20)
  /\ 0 < 4000 <= 2 ^ 53
  /\ events_of 4000000 "light" None = [EvCopy "in.mp4" "out.mp4"].
Proof.
  assert (H2 : (get_video_info (ffprobe_of (Some 4000000)) "in.mp4"
                  world0).1 = Ok (1920, 1080, f100, 4000, f20))
    by (vm_compute; reflexivity).
  assert (H3 : 0 < 4000 <= 2 ^ 53) by (split; reflexivity || discriminate).
  split; [exact H2|]. split; [exact H3|].
  exact (light_preset_copies "posix" ffmpeg_ok
           (ffprobe_of (Some 4000000)) "in.mp4" "out.mp4" world0
           1920 1080 f100 4000 f20 H2 H3).
Defined.

(** C10 as stated fails beyond 53 bits: a source probed at
    [9007199254740993000] bit/s has the bitrate [2^53 + 1] kbit/s, which
    [float] rounds down to [2^53]; the source then exceeds the computed
    bitrate and is encoded. *)
Lemma light_preset_encodes_beyond_53_bits :
  (get_video_info (ffprobe_of (Some 9007199254740993000)) "in.mp4"
     world0).1 = Ok (1920, 1080, f100, 2 ^ 53 + 1, f20)
  /\ quality_video_kbps (2 ^ 53 + 1) PyFloat.lit_1_0 = Ok (2 ^ 53)
  /\ events_of 9007199254740993000 "light" None
     = [EvRun (cmd_one_pass "in.mp4" "out.mp4" "scale=-2:1080"
                 9007199254740992 96 "slow")]
  /\ events_of 9007199254740993000 "light" None
     <> [EvCopy "in.mp4" "out.mp4"].
Proof.
  split; [vm_compute; reflexivity|].
  split; [vm_compute; reflexivity|].
  split; [vm_compute; reflexivity|].
  vm_compute. discriminate.
Qed.

(** C1 fails on the code: when the second pass exits with a non-zero
    status, [compress_video] raises [CalledProcessError] and both
    statistics files written by the first pass are still there; no
    removal was attempted. *)
Theorem two_pass_failure_keeps_logs :
  let r := compress_video "posix" ffmpeg_pass2_fails
             (ffprobe_of (Some 4000000)) "in.mp4" "out.mp4" "medium"
             (Some 10) world0 in
  r.1 = Raise (CalledProcessError 1
                 (cmd_pass2 "in.mp4" "out.mp4" "scale=-2:720" 723 96
                    "slow"))
  /\ fs r.2 !! "ffmpeg2pass-0.log" = Some 4096
  /\ fs r.2 !! "ffmpeg2pass-0.log.mbtree" = Some 65536
  /\ trace r.2
     = [ EvRun (cmd_pass1 "posix" "in.mp4" "scale=-2:720" 723 "slow");
         EvRun (cmd_pass2 "in.mp4" "out.mp4" "scale=-2:720" 723 96
                  "slow") ].
Proof. vm_compute. repeat split; reflexivity. Qed.

End Concrete.

(** ** The front end *)

Section GuiClaims.
Import Gui.

Lemma task_queue_set_status (t : Status) (a : App) :
  task_queue (set_status t a) = task_queue a.
Proof. unfold set_status. now destruct (ui a). Qed.

Lemma task_queue_log_msg (t : LogLine) (a : App) :
  task_queue (log_msg t a) = task_queue a.
Proof. unfold log_msg. now destruct (ui a). Qed.

Lemma status_calls_log_msg (t : LogLine) (a : App) :
  status_calls (log_msg t a) = status_calls a.
Proof. unfold log_msg. now destruct (ui a). Qed.

(** C2, amended.  When the text of the target entry is not empty and is
    not a number, [choose_file] hands the error text to the status
    display and still puts the job on the queue, with no target size. *)
Theorem choose_file_non_numeric os_name files file_path (a : App) :
  ui a = true ->
  file_path <> "" ->
  PyStr.strip (targetEntry a) <> "" ->
  PyStr.to_int (PyStr.strip (targetEntry a)) = None ->
  exists output_file a',
    choose_file os_name files file_path a = Some a'
    /\ task_queue a'
       = task_queue a ++ [(file_path, output_file, current_preset a, None)]
    /\ status_calls a' = status_calls a ++ [StTargetNotNumber].
Proof.
  intros Hui Hfile Hraw Hint. unfold choose_file.
  destruct (String.eqb_spec file_path "") as [|_]; [contradiction|].
  destruct (output_filename_total os_name files
              ((Utils.splitext os_name file_path).1 +:+ current_preset a
               +:+ "_compressed.mp4")) as [output_file Ho].
  rewrite Ho. cbn [mbind option_bind].
  unfold get_target_mb.
  destruct (String.eqb_spec (PyStr.strip (targetEntry a)) "") as [|_];
    [contradiction|].
  rewrite Hint.
  eexists output_file, _. split; [reflexivity|].
  cbn [queue_put task_queue status_calls].
  rewrite task_queue_log_msg, task_queue_set_status, status_calls_log_msg.
  split; [reflexivity|].
  unfold set_status. now rewrite Hui.
Qed.

End GuiClaims.

Section GuiConcrete.
Import Gui Scenario.

(** The entry holds [abc] and the dialog returns [in.mp4]. *)
Lemma choose_file_non_numeric_witness :
  ui (app0 "abc") = true
  /\ "in.mp4" <> ""
  /\ PyStr.strip (targetEntry (app0 "abc")) <> ""
  /\ PyStr.to_int (PyStr.strip (targetEntry (app0 "abc"))) = None
  /\ exists output_file a',
       choose_file "posix" (fs world0) "in.mp4" (app0 "abc") = Some a'
       /\ task_queue a' = [("in.mp4", output_file, "medium", None)]
       /\ status_calls a' = [StTargetNotNumber].
Proof.
  assert (H1 : ui (app0 "abc") = true) by reflexivity.
  assert (H2 : "in.mp4" <> "") by discriminate.
  assert (H3 : PyStr.strip (targetEntry (app0 "abc")) <> "")
    by (vm_compute; discriminate).
  assert (H4 : PyStr.to_int (PyStr.strip (targetEntry (app0 "abc"))) = None)
    by reflexivity.
  split; [exact H1|]. split; [exact H2|]. split; [exact H3|].
  split; [exact H4|].
  exact (choose_file_non_numeric "posix" (fs world0) "in.mp4"
           (app0 "abc") H1 H2 H3 H4).
Defined.

(** C2 as stated fails: with [abc] in the target entry the job is on the
    queue after [choose_file]. *)
Lemma choose_file_enqueues_non_numeric :
  PyStr.strip (targetEntry (app0 "abc")) <> ""
  /\ PyStr.to_int (PyStr.strip (targetEntry (app0 "abc"))) = None
  /\ task_queue <$> choose_file "posix" (fs world0) "in.mp4" (app0 "abc")
     = Some [("in.mp4", "inmedium_compressed.mp4", "medium", None)]
  /\ task_queue <$> choose_file "posix" (fs world0) "in.mp4" (app0 "abc")
     <> Some (task_queue (app0 "abc")).
Proof.
  split; [vm_compute; discriminate|]. split; [reflexivity|].
  split; [vm_compute; reflexivity|]. vm_compute. discriminate.
Qed.

End GuiConcrete.

(** ** The worker pool *)

Section PoolClaims.
Import Gui.
Variable os_name : string.
Variable ffmpeg : list string -> gmap string Z -> Z * gmap string Z.
Variable ffprobe : string -> gmap string Z -> Res Compressor.Probe.

Local Abbreviation step := (Gui.step os_name ffmpeg ffprobe).

Lemma task_queue_worker_begin (job : Job) (a : App) :
  task_queue (worker_begin job a) = task_queue a.
Proof.
  destruct job as [[[i o] p] t]. unfold worker_begin.
  now rewrite task_queue_log_msg, task_queue_set_status.
Qed.

Lemma task_queue_worker_end (job : Job) r (a : App) :
  task_queue (worker_end job r a) = task_queue a.
Proof.
  destruct job as [[[i o] p] t]. unfold worker_end.
  match goal with
  | |- context [match task_queue ?x with _ => _ end] => set (a1 := x)
  end.
  assert (H : task_queue a1 = task_queue a).
  { subst a1.
    destruct r; now rewrite ?task_queue_log_msg, ?task_queue_set_status. }
  destruct (task_queue a1) eqn:E;
    rewrite ?task_queue_set_status; congruence.
Qed.

Lemma running_take (ws : list (option Job)) (i : nat) (job : Job) :
  ws !! i = Some None ->
  omap id (<[i := Some job]> ws) ≡ₚ job :: omap id ws.
Proof.
  revert i. induction ws as [|w ws IH]; intros [|i] H; try discriminate.
  - cbn in H. injection H as ->. reflexivity.
  - cbn in H. cbn [insert list_insert omap]. destruct w as [j|]; cbn.
    + rewrite IH by assumption. apply Permutation_swap.
    + now apply IH.
Qed.

Lemma running_give (ws : list (option Job)) (i : nat) (job : Job) :
  ws !! i = Some (Some job) ->
  omap id ws ≡ₚ job :: omap id (<[i := None]> ws).
Proof.
  revert i. induction ws as [|w ws IH]; intros [|i] H; try discriminate.
  - cbn in H. injection H as ->. reflexivity.
  - cbn in H. cbn [insert list_insert omap]. destruct w as [j|]; cbn.
    + rewrite (IH i) by assumption. apply Permutation_swap.
    + now apply IH.
Qed.

Lemma step_inv count jobs p p' :
  pool_inv count jobs p -> step p p' ->
  pool_inv count jobs p' /\ S (steps_left p') = steps_left p.
Proof.
  intros (Hlen & Hun & Hperm) Hstep.
  destruct Hstep as [job rest p Hsub|i job q p Hw Hq|i job w p Hw].
  - unfold pool_inv, steps_left, running in *. cbn.
    rewrite Hsub in *. rewrite !length_app. cbn.
    repeat split; try assumption; try lia.
    etrans; [exact Hperm|]. now rewrite <- (app_assoc (task_queue (app p))).
  - pose proof (running_take _ _ job Hw) as Hr.
    pose proof (Permutation_length Hr) as Hl. cbn in Hl.
    unfold pool_inv, steps_left, running in *. cbn.
    rewrite task_queue_worker_begin. cbn. rewrite Hq in *.
    rewrite length_insert. cbn in *.
    repeat split; try assumption; try lia.
    etrans; [exact Hperm|]. apply Permutation_app_head.
    symmetry. etrans; [apply Permutation_app_tail; exact Hr|].
    cbn. apply Permutation_middle.
  - pose proof (running_give _ _ job Hw) as Hr.
    pose proof (Permutation_length Hr) as Hl. cbn in Hl.
    unfold pool_inv, steps_left, running in *. cbn.
    rewrite task_queue_worker_end, length_insert.
    unfold jobs_of. rewrite fmap_app. cbn.
    repeat split; try assumption; try lia.
    etrans; [exact Hperm|]. rewrite <- !app_assoc.
    apply Permutation_app_head.
    etrans; [apply Permutation_app_tail; exact Hr|]. reflexivity.
Qed.

Lemma nsteps_inv count jobs n p p' :
  pool_inv count jobs p -> nsteps step n p p' ->
  pool_inv count jobs p' /\ (steps_left p' + n)%nat = steps_left p.
Proof.
  intros Hinv Hn. induction Hn as [p|n p q r Hpq Hqr IH].
  - split; [assumption|lia].
  - destruct (step_inv _ _ _ _ Hinv Hpq) as [Hq Hm].
    destruct (IH Hq) as [Hr Hm']. split; [assumption|lia].
Qed.

(** While steps remain, one of them can be taken. *)
Lemma step_progress count jobs p :
  (0 < count)%nat -> pool_inv count jobs p -> (0 < steps_left p)%nat ->
  exists p', step p p'.
Proof.
  intros Hc (Hlen & Hun & Hperm) Hleft.
  destruct (to_submit p) as [|job rest] eqn:Hsub.
  - destruct (running p) as [|job r] eqn:Hrun.
    + destruct (task_queue (app p)) as [|job q] eqn:Hq.
      * unfold steps_left in Hleft. rewrite Hsub, Hrun, Hq in Hleft.
        cbn in Hleft. lia.
      * destruct (workers p) as [|w ws] eqn:Hws; [cbn in Hlen; lia|].
        assert (w = None) as ->.
        { unfold running in Hrun. rewrite Hws in Hrun. cbn in Hrun.
          now destruct w. }
        eexists. eapply (step_get _ _ _ 0%nat job q); [|eassumption].
        now rewrite Hws.
    + assert (Hin : job ∈ running p) by (rewrite Hrun; left).
      unfold running in Hin. apply list_elem_of_omap in Hin
        as (w & Hw & Hid). cbn in Hid. subst w.
      apply list_elem_of_lookup in Hw as [i Hi].
      eexists. eapply (step_done _ _ _ i job {| fs := ∅; trace := [] |}).
      eassumption.
  - eexists. eapply step_put. eassumption.
Qed.

Lemma drained_steps_left count jobs p :
  pool_inv count jobs p -> (drained p <-> steps_left p = 0%nat).
Proof.
  intros (Hlen & Hun & Hperm). unfold drained, steps_left. split.
  - intros (-> & -> & -> & _). reflexivity.
  - intros H.
    destruct (to_submit p); [|cbn in H; lia].
    destruct (task_queue (app p)); [|cbn in H; lia].
    destruct (running p); [|cbn in H; lia].
    cbn in Hun. now repeat split.
Qed.

Lemma start_workers_inv count a jobs :
  pool_inv count jobs (start_workers count a jobs)
  /\ steps_left (start_workers count a jobs) = (3 * length jobs)%nat.
Proof.
  assert (Hr : forall n, omap id (replicate n (@None Job)) = [])
    by (induction n; [reflexivity|assumption]).
  unfold pool_inv, steps_left, running, start_workers. cbn.
  rewrite Hr, length_replicate. cbn. repeat split; try lia. reflexivity.
Qed.

(** C9.  Two workers on a fresh queue and [N] jobs to submit: whatever
    the interleaving, after [n] steps at most [3 * N] steps have been
    taken, each job is in exactly one place (still to submit, queued,
    held by one worker, or finished), a further step is possible as
    long as [n < 3 * N], and at [n = 3 * N], and only then, the pool is
    drained: nothing is queued or running, and the finished iterations,
    each one ended as [Succeeded] or [Failed] on one worker, are the
    submitted jobs, each one once. *)
Theorem pool_drains (a : App) (jobs : list Job) (n : nat) (p : Pool) :
  nsteps step n (start_workers 2 a jobs) p ->
  (n <= 3 * length jobs)%nat
  /\ jobs ≡ₚ jobs_of (finished p) ++ running p
              ++ task_queue (app p) ++ to_submit p
  /\ ((n < 3 * length jobs)%nat -> exists p', step p p')
  /\ (n = (3 * length jobs)%nat <-> drained p)
  /\ (drained p -> jobs_of (finished p) ≡ₚ jobs)
  /\ ((forall p', ~ step p p') -> drained p).
Proof.
  intros Hn.
  destruct (start_workers_inv 2 a jobs) as [Hinv0 Hm0].
  destruct (nsteps_inv _ _ _ _ _ Hinv0 Hn) as [Hinv Hm].
  rewrite Hm0 in Hm.
  pose proof (drained_steps_left _ _ _ Hinv) as Hd.
  assert (Hprog : (0 < steps_left p)%nat -> exists p', step p p')
    by (apply (step_progress 2 jobs); [lia|assumption]).
  split; [lia|]. split; [apply Hinv|].
  split; [intros; apply Hprog; lia|].
  split; [rewrite Hd; lia|].
  split.
  - intros (Hs & Hq & Hr & _). destruct Hinv as (_ & _ & Hperm).
    rewrite Hs, Hq, Hr, !app_nil_r in Hperm. now symmetry.
  - intros Hstuck. apply Hd.
    destruct (steps_left p) eqn:E; [reflexivity|].
    destruct Hprog as [p' Hp']; [lia|]. now apply Hstuck in Hp'.
Qed.

End PoolClaims.

Section PoolConcrete.
Import Gui Scenario.

(** One job, put on the queue, taken by the first worker and finished. *)
Lemma pool_drains_witness :
  exists p,
    nsteps pool_step 3 (start_workers 2 (app0 "10") [job0]) p
    /\ drained p
    /\ jobs_of (finished p) ≡ₚ [job0].
Proof.
  assert (Hrun : exists p,
             nsteps pool_step 3 (start_workers 2 (app0 "10") [job0]) p).
  { eexists.
    eapply nsteps_l; [eapply step_put; reflexivity|].
    eapply nsteps_l; [eapply (step_get _ _ _ 0%nat); reflexivity|].
    eapply nsteps_l;
      [eapply (step_done _ _ _ 0%nat _ world0); reflexivity|].
    apply nsteps_O. }
  destruct Hrun as [p Hp]. exists p.
  destruct (pool_drains "posix" ffmpeg_ok (ffprobe_of (Some 4000000))
              (app0 "10") [job0] 3 p Hp)
    as (_ & _ & _ & Hd & Hperm & _).
  split; [exact Hp|]. split; [now apply Hd|]. apply Hperm. now apply Hd.
Defined.

End PoolConcrete.

(** ** Clean-up of the pass statistics *)

Section Cleanup.
Import Compressor.
Variable os_name : string.
Variable ffmpeg : list string -> gmap string Z -> Z * gmap string Z.
Variable ffprobe : string -> gmap string Z -> Res Probe.

(** The loop over the statistics files never raises and leaves none of
    them behind. *)
Lemma remove_logfiles_fs (l : list string) (w : World) :
  (remove_logfiles l w).1 = Ok tt
  /\ forall q, fs (remove_logfiles l w).2 !! q
               = if decide (q ∈ l) then None else fs w !! q.
Proof.
  revert w. induction l as [|p l IH]; intros w.
  - split; [reflexivity|]. intros q. cbn.
    destruct (decide (q ∈ [])) as [H|_]; [|reflexivity].
    now apply elem_of_nil in H.
  - cbn [remove_logfiles]. unfold bind, os_path_exists.
    destruct (bool_decide (is_Some (fs w !! p))) eqn:E.
    + apply bool_decide_eq_true in E as [n Hn].
      unfold os_remove, bind, emit; cbn. rewrite Hn.
      destruct (IH {| fs := delete p (fs w);
                      trace := trace w ++ [EvRemove p] |}) as [Hok Hfs].
      split; [exact Hok|]. intros q. rewrite Hfs. cbn [fs].
      destruct (decide (q ∈ l)) as [Hl|Hl].
      * rewrite decide_True by (now right). reflexivity.
      * destruct (decide (q = p)) as [->|Hne].
        -- rewrite decide_True by left. apply lookup_delete_eq.
        -- rewrite decide_False
             by (rewrite elem_of_cons; intuition congruence).
           now apply lookup_delete_ne.
    + apply bool_decide_eq_false in E. unfold ret.
      destruct (IH w) as [Hok Hfs].
      split; [exact Hok|]. intros q. rewrite Hfs.
      destruct (decide (q ∈ l)) as [Hl|Hl].
      * rewrite decide_True by (now right). reflexivity.
      * destruct (decide (q = p)) as [->|Hne].
        -- rewrite decide_True by left.
           destruct (fs w !! p) eqn:Ep; [|reflexivity].
           exfalso. apply E. eauto.
        -- rewrite decide_False
             by (rewrite elem_of_cons; intuition congruence).
           reflexivity.
Qed.

(** The happy path of C1: a two-pass run that returns leaves no
    statistics file. *)
Lemma two_pass_success_removes_logs input output preset t w cfg
    wd h dur kbps size v s :
  Presets.get_preset preset = Ok cfg ->
  (get_video_info ffprobe input w).1 = Ok (wd, h, dur, kbps, size) ->
  planned (Presets.video_kbps_mult cfg) dur kbps size (Some t)
    = Ok (ActTwoPass v) ->
  (compress_video os_name ffmpeg ffprobe input output preset (Some t) w).1
    = Ok s ->
  forall logfile, logfile ∈ logfiles ->
    fs (compress_video os_name ffmpeg ffprobe
          input output preset (Some t) w).2 !! logfile = None.
Proof.
  intros Hp Hi Hpl. unfold planned in Hpl.
  remember (compress_video os_name ffmpeg ffprobe
              input output preset (Some t) w) as r eqn:Hr.
  revert Hr.
  unfold compress_video. unfold bind at 1. unfold lift at 1.
  rewrite Hp. unfold bind at 1.
  pose proof (get_video_info_world ffprobe input w) as Hw.
  destruct (get_video_info ffprobe input w) as [ri wi].
  cbn in Hi, Hw. subst ri wi.
  unfold bind at 1. unfold lift at 1.
  destruct (under_target size (Some t)) as [[|]|e]; try discriminate.
  cbn [res_bind] in Hpl.
  destruct (truthy (Some t)) as [t'|].
  2:{ destruct (quality_video_kbps _ _); cbn in Hpl;
        [destruct (_ && _)|]; discriminate. }
  unfold bind at 1. unfold lift at 1.
  destruct (target_video_kbps t' dur 96) as [v'|e]; [|discriminate].
  unfold _two_pass_encode, bind.
  rewrite !subprocess_run_eq. cbn [fs trace].
  destruct (_ =? 0); [|intros ->; discriminate].
  destruct (_ =? 0); [|intros ->; discriminate].
  match goal with
  | |- context [remove_logfiles ?l ?w1] =>
      destruct (remove_logfiles_fs l w1) as [Hok Hfs];
      destruct (remove_logfiles l w1) as [r' w2]
  end.
  cbn [fst snd] in Hok, Hfs. subst r'.
  intros -> _ logfile Hin.
  rewrite get_file_size_mb_world.
  rewrite Hfs. now rewrite decide_True.
Qed.

End Cleanup.

(** * Further properties of the code *)

(** ** Whole runs of [compress_video] *)

Section RunEquations.
Import Compressor.

Lemma removed_lookup (l : list string) (files : gmap string Z) (q : string) :
  removed l files !! q = if decide (q ∈ l) then None else files !! q.
Proof.
  revert files. induction l as [|p l IH]; intros files; cbn [removed].
  - destruct (decide (q ∈ [])) as [H|_]; [|reflexivity].
    now apply elem_of_nil in H.
  - rewrite IH. destruct (decide (q ∈ l)) as [Hl|Hl].
    + rewrite decide_True by (now right). reflexivity.
    + destruct (decide (q = p)) as [->|Hne].
      * rewrite decide_True by left. apply lookup_delete_eq.
      * rewrite decide_False
          by (rewrite elem_of_cons; intuition congruence).
        now apply lookup_delete_ne.
Qed.

Lemma removals_only (l : list string) (files : gmap string Z) :
  runs (removals l files) = [] /\ copies (removals l files) = []
  /\ Forall (fun ev => exists p, ev = EvRemove p /\ p ∈ l)
            (removals l files).
Proof.
  revert files. induction l as [|p l IH]; intros files; cbn [removals].
  - repeat split; constructor.
  - destruct (IH (delete p files)) as (Hr & Hc & Hf).
    assert (Hf' : Forall (fun ev => exists q, ev = EvRemove q /\ q ∈ p :: l)
                    (removals l (delete p files))).
    { eapply Forall_impl; [exact Hf|].
      intros ev (q & -> & Hq). exists q. split; [reflexivity|now right]. }
    destruct (Gui.path_exists files p); cbn.
    + repeat split; try assumption.
      constructor; [|exact Hf']. exists p. split; [reflexivity|left].
    + repeat split; assumption.
Qed.

Variable os_name : string.
Variable ffmpeg : list string -> gmap string Z -> Z * gmap string Z.
Variable ffprobe : string -> gmap string Z -> Res Probe.

Lemma get_file_size_mb_eq (path : string) (w : World) :
  get_file_size_mb path w = (file_size_mb (fs w) path, w).
Proof.
  unfold get_file_size_mb, file_size_mb, bind, os_path_getsize, lift.
  now destruct (fs w !! path).
Qed.

Lemma remove_logfiles_eq (l : list string) (w : World) :
  remove_logfiles l w
  = (Ok tt, {| fs := removed l (fs w);
               trace := trace w ++ removals l (fs w) |}).
Proof.
  revert w. induction l as [|p l IH]; intros [f t]; cbn [fs trace].
  - cbn. unfold ret. now rewrite app_nil_r.
  - cbn [remove_logfiles removed removals]. unfold bind, os_path_exists.
    cbn [fs trace]. fold (Gui.path_exists f p).
    destruct (Gui.path_exists f p) eqn:E.
    + apply bool_decide_eq_true in E as [n Hn].
      unfold os_remove, bind, emit; cbn [fs trace]. rewrite Hn.
      rewrite IH. cbn [fs trace]. now rewrite <- app_assoc.
    + apply bool_decide_eq_false in E.
      assert (Hn : f !! p = None)
        by (destruct (f !! p) eqn:Ep; [exfalso; apply E; eauto|reflexivity]).
      unfold ret. rewrite IH. cbn [fs trace app].
      now rewrite (delete_id f p Hn).
Qed.

Lemma get_video_info_eq input w info :
  (get_video_info ffprobe input w).1 = Ok info ->
  get_video_info ffprobe input w = (Ok info, w).
Proof.
  intros H. pose proof (get_video_info_world ffprobe input w) as Hw.
  destruct (get_video_info ffprobe input w) as [r w']. cbn in *.
  now subst.
Qed.

(** The run of a call that has got its preset and a probe of its input,
    by the action that [planned] names. *)
Lemma compress_video_run input output preset target w cfg
    wd h dur kbps size :
  Presets.get_preset preset = Ok cfg ->
  (get_video_info ffprobe input w).1 = Ok (wd, h, dur, kbps, size) ->
  let scale := "scale=-2:" +:+ PyStr.of_int (Presets.max_height cfg) in
  compress_video os_name ffmpeg ffprobe input output preset target w
  = match planned (Presets.video_kbps_mult cfg) dur kbps size target with
    | Raise e => (Raise e, w)
    | Ok ActCopy => (shutil_copy input output ;;; get_file_size_mb output) w
    | Ok (ActTwoPass v) =>
        let p1 := cmd_pass1 os_name input scale v (Presets.preset cfg) in
        let p2 := cmd_pass2 input output scale v 96 (Presets.preset cfg) in
        let r1 := ffmpeg p1 (fs w) in
        let r2 := ffmpeg p2 r1.2 in
        if r1.1 =? 0 then
          if r2.1 =? 0 then
            (file_size_mb (removed logfiles r2.2) output,
             {| fs := removed logfiles r2.2;
                trace := trace w ++ [EvRun p1; EvRun p2]
                         ++ removals logfiles r2.2 |})
          else
            (Raise (CalledProcessError r2.1 p2),
             {| fs := r2.2; trace := trace w ++ [EvRun p1; EvRun p2] |})
        else
          (Raise (CalledProcessError r1.1 p1),
           {| fs := r1.2; trace := trace w ++ [EvRun p1] |})
    | Ok (ActOnePass v) =>
        let p := cmd_one_pass input output scale v 96 (Presets.preset cfg) in
        let r := ffmpeg p (fs w) in
        if r.1 =? 0 then
          (file_size_mb r.2 output,
           {| fs := r.2; trace := trace w ++ [EvRun p] |})
        else
          (Raise (CalledProcessError r.1 p),
           {| fs := r.2; trace := trace w ++ [EvRun p] |})
    end.
Proof.
  intros Hp Hi scale.
  unfold compress_video. unfold bind at 1. unfold lift at 1. rewrite Hp.
  unfold bind at 1. rewrite (get_video_info_eq _ _ _ Hi).
  unfold planned. unfold bind at 1. unfold lift at 1.
  destruct (under_target size target) as [[|]|e]; cbn [res_bind];
    [reflexivity| |reflexivity].
  destruct (truthy target) as [t|].
  - unfold bind at 1. unfold lift at 1.
    destruct (target_video_kbps t dur 96) as [v|e]; cbn [res_bind];
      [|reflexivity].
    fold scale. cbv zeta. unfold _two_pass_encode, bind.
    rewrite subprocess_run_eq.
    destruct (_ =? 0); [|reflexivity].
    rewrite subprocess_run_eq. cbn [fs trace].
    destruct (_ =? 0).
    + rewrite remove_logfiles_eq, get_file_size_mb_eq. cbn [fs trace].
      now rewrite <- !app_assoc.
    + now rewrite <- !app_assoc.
  - unfold bind at 1. unfold lift at 1.
    destruct (quality_video_kbps kbps (Presets.video_kbps_mult cfg))
      as [v|e]; cbn [res_bind]; [|reflexivity].
    destruct (negb (kbps =? 0) && (kbps <=? v)); [reflexivity|].
    fold scale. cbv zeta. unfold _one_pass_encode, bind.
    rewrite subprocess_run_eq.
    destruct (_ =? 0); [|reflexivity].
    now rewrite get_file_size_mb_eq.
Qed.

Lemma compress_video_no_preset input output preset target w e :
  Presets.get_preset preset = Raise e ->
  compress_video os_name ffmpeg ffprobe input output preset target w
  = (Raise e, w).
Proof.
  intros Hp. unfold compress_video. unfold bind at 1. unfold lift at 1.
  now rewrite Hp.
Qed.

Lemma compress_video_no_info input output preset target w cfg e :
  Presets.get_preset preset = Ok cfg ->
  (get_video_info ffprobe input w).1 = Raise e ->
  compress_video os_name ffmpeg ffprobe input output preset target w
  = (Raise e, w).
Proof.
  intros Hp Hi. unfold compress_video. unfold bind at 1. unfold lift at 1.
  rewrite Hp. unfold bind at 1.
  pose proof (get_video_info_world ffprobe input w) as Hw.
  destruct (get_video_info ffprobe input w) as [r w']. cbn in *.
  now subst.
Qed.

Lemma copy_run (src dst : string) (w : World) :
  (shutil_copy src dst ;;; get_file_size_mb dst) w
  = let w1 := {| fs := fs w; trace := trace w ++ [EvCopy src dst] |} in
    match fs w !! src with
    | None => (Raise (FileNotFoundError src), w1)
    | Some n =>
        if String.eqb src dst then (Raise (SameFileError src), w1)
        else (PyFloat.int_truediv n (1024 * 1024),
              {| fs := <[dst := n]> (fs w);
                 trace := trace w ++ [EvCopy src dst] |})
    end.
Proof.
  unfold bind at 1. unfold shutil_copy, bind, emit. cbn [fs trace].
  destruct (fs w !! src) as [n|]; [|reflexivity].
  destruct (String.eqb src dst); [reflexivity|].
  rewrite get_file_size_mb_eq. unfold file_size_mb. cbn [fs].
  now rewrite lookup_insert_eq.
Qed.

(** A probe that succeeded has read the size of the file. *)
Lemma get_video_info_size input w wd h dur kbps size :
  (get_video_info ffprobe input w).1 = Ok (wd, h, dur, kbps, size) ->
  exists n, fs w !! input = Some n
            /\ PyFloat.int_truediv n (1024 * 1024) = Ok size.
Proof.
  unfold get_video_info, bind.
  destruct (ffprobe input (fs w)) as [pr|e]; [|discriminate].
  destruct (List.find _ _); [|discriminate].
  rewrite get_file_size_mb_eq. unfold file_size_mb.
  destruct (fs w !! input) as [n|]; [|discriminate].
  destruct (PyFloat.int_truediv n (1024 * 1024)) as [x|e] eqn:E;
    [|discriminate].
  cbn. intros [= _ _ _ _ <-]. eauto.
Qed.

End RunEquations.

(** ** What a call of [compress_video] does and leaves *)

Section WholeRuns.
Import Compressor.
Variable os_name : string.
Variable ffmpeg : list string -> gmap string Z -> Z * gmap string Z.
Variable ffprobe : string -> gmap string Z -> Res Probe.

Local Abbreviation run := (compress_video os_name ffmpeg ffprobe).

(** Case analysis on the exit status that the goal tests next. *)
Ltac case_exit :=
  match goal with
  | |- context [if ?c =? 0 then _ else _] => destruct (Z.eqb_spec c 0)
  end.

(** Either the call fails before it acts, or it has a preset and a probe
    and goes by [compress_video_run]. *)
Lemma compress_video_cases input output preset target w :
  (exists e, run input output preset target w = (Raise e, w))
  \/ (exists cfg wd h dur kbps size,
        Presets.get_preset preset = Ok cfg
        /\ (get_video_info ffprobe input w).1
           = Ok (wd, h, dur, kbps, size)).
Proof.
  destruct (Presets.get_preset preset) as [cfg|e] eqn:Hp.
  - destruct (get_video_info ffprobe input w).1
      as [[[[[wd h] dur] kbps] size]|e] eqn:Hi.
    + right. eauto 10.
    + left. exists e. now apply compress_video_no_info with cfg.
  - left. exists e. now apply compress_video_no_preset.
Qed.

Lemma runs_app (l1 l2 : list Event) : runs (l1 ++ l2) = runs l1 ++ runs l2.
Proof. apply omap_app. Qed.

Lemma copies_app (l1 l2 : list Event) :
  copies (l1 ++ l2) = copies l1 ++ copies l2.
Proof. apply omap_app. Qed.


(** X2.  A call that returns has found the output file: the value it
    returns is the size of that file, as it is when the call ends, over
    [1024 * 1024]. *)
Theorem compress_video_returns_output_size input output preset target w s :
  (run input output preset target w).1 = Ok s ->
  exists n,
    fs (run input output preset target w).2 !! output = Some n
    /\ PyFloat.int_truediv n (1024 * 1024) = Ok s.
Proof.
  assert (Hsz : forall files, file_size_mb files output = Ok s ->
            exists n, files !! output = Some n
                      /\ PyFloat.int_truediv n (1024 * 1024) = Ok s).
  { intros files. unfold file_size_mb.
    destruct (files !! output) as [n|]; [eauto|discriminate]. }
  destruct (compress_video_cases input output preset target w)
    as [[e ->]|(cfg & wd & h & dur & kbps & size & Hp & Hi)];
    [discriminate|].
  rewrite (compress_video_run os_name ffmpeg ffprobe input output preset
             target w cfg wd h dur kbps size Hp Hi).
  cbv zeta.
  destruct (planned _ dur kbps size target) as [[|v|v]|e].
  - rewrite copy_run. cbv zeta.
    destruct (fs w !! input) as [n|]; [|discriminate].
    destruct (String.eqb input output); [discriminate|].
    cbn [fst snd fs]. intros H. exists n.
    now rewrite lookup_insert_eq.
  - destruct (_ =? 0); [destruct (_ =? 0)|]; cbn [fst snd fs];
      try discriminate. apply Hsz.
  - destruct (_ =? 0); cbn [fst snd fs]; try discriminate. apply Hsz.
  - discriminate.
Qed.


(** X4.  When the first encoder run of a call exits with a status
    other than zero, no second run is made, the call raises
    [CalledProcessError] with that status and that command line, and the
    file system is left as that run left it. *)
Theorem first_run_failure_ends_job input output preset target w argv rest :
  runs (new_events w (run input output preset target w).2) = argv :: rest ->
  (ffmpeg argv (fs w)).1 <> 0 ->
  rest = []
  /\ (run input output preset target w).1
     = Raise (CalledProcessError (ffmpeg argv (fs w)).1 argv)
  /\ fs (run input output preset target w).2 = (ffmpeg argv (fs w)).2.
Proof.
  destruct (compress_video_cases input output preset target w)
    as [[e ->]|(cfg & wd & h & dur & kbps & size & Hp & Hi)].
  { cbn [snd]. now rewrite new_events_refl. }
  rewrite (compress_video_run os_name ffmpeg ffprobe input output preset
             target w cfg wd h dur kbps size Hp Hi).
  cbv zeta.
  destruct (planned _ dur kbps size target) as [[|v|v]|e].
  - rewrite copy_run. cbv zeta.
    destruct (fs w !! input) as [n|];
      [destruct (String.eqb input output)|];
      cbn [snd]; rewrite new_events_app; discriminate.
  - case_exit; [case_exit|]; cbn [fst snd fs]; rewrite new_events_app.
    + rewrite runs_app. cbn. intros [= <- _] Hrc. contradiction.
    + cbn. intros [= <- _] Hrc. contradiction.
    + cbn. intros [= <- <-] _. now repeat split.
  - case_exit; cbn [fst snd fs]; rewrite new_events_app; cbn.
    + intros [= <- _] Hrc. contradiction.
    + intros [= <- <-] _. now repeat split.
  - cbn [snd]. now rewrite new_events_refl.
Qed.

(** X5.  When a call made two encoder runs and returned, the file
    system it leaves is the one the second run left, less the two
    statistics files: neither of them exists, and every other file is as
    the second run left it. *)
Theorem two_pass_return_cleans input output preset target w a1 a2 s :
  runs (new_events w (run input output preset target w).2) = [a1; a2] ->
  (run input output preset target w).1 = Ok s ->
  let after := (ffmpeg a2 (ffmpeg a1 (fs w)).2).2 in
  forall q,
    fs (run input output preset target w).2 !! q
    = if decide (q ∈ logfiles) then None else after !! q.
Proof.
  destruct (compress_video_cases input output preset target w)
    as [[e ->]|(cfg & wd & h & dur & kbps & size & Hp & Hi)].
  { cbn [snd]. now rewrite new_events_refl. }
  rewrite (compress_video_run os_name ffmpeg ffprobe input output preset
             target w cfg wd h dur kbps size Hp Hi).
  cbv zeta.
  destruct (planned _ dur kbps size target) as [[|v|v]|e].
  - rewrite copy_run. cbv zeta.
    destruct (fs w !! input) as [n|];
      [destruct (String.eqb input output)|];
      cbn [snd]; rewrite new_events_app; discriminate.
  - case_exit; [case_exit|]; cbn [fst snd fs];
      rewrite new_events_app; try (intros; discriminate).
    change (runs ([EvRun ?p1; EvRun ?p2] ++ ?l)) with (p1 :: p2 :: runs l).
    intros [= <- <-] _ q. apply removed_lookup.
  - case_exit; cbn [fst snd fs]; rewrite new_events_app; discriminate.
  - cbn [snd]. now rewrite new_events_refl.
Qed.

(** X6.  When a call made two encoder runs and the second exits with
    a status other than zero, the call raises [CalledProcessError] with
    that status and the command line of the second pass, and the file
    system is left as that run left it. *)
Theorem second_pass_failure_raises input output preset target w a1 a2 :
  runs (new_events w (run input output preset target w).2) = [a1; a2] ->
  let r2 := ffmpeg a2 (ffmpeg a1 (fs w)).2 in
  r2.1 <> 0 ->
  (run input output preset target w).1 = Raise (CalledProcessError r2.1 a2)
  /\ fs (run input output preset target w).2 = r2.2.
Proof.
  destruct (compress_video_cases input output preset target w)
    as [[e ->]|(cfg & wd & h & dur & kbps & size & Hp & Hi)].
  { cbn [snd]. now rewrite new_events_refl. }
  rewrite (compress_video_run os_name ffmpeg ffprobe input output preset
             target w cfg wd h dur kbps size Hp Hi).
  cbv zeta.
  destruct (planned _ dur kbps size target) as [[|v|v]|e].
  - rewrite copy_run. cbv zeta.
    destruct (fs w !! input) as [n|];
      [destruct (String.eqb input output)|];
      cbn [snd]; rewrite new_events_app; discriminate.
  - case_exit; [case_exit|]; cbn [fst snd fs];
      rewrite new_events_app; try (intros; discriminate).
    + change (runs ([EvRun ?p1; EvRun ?p2] ++ ?l)) with (p1 :: p2 :: runs l).
      intros [= <- <-] Hrc. contradiction.
    + intros [= <- <-] _. now split.
  - case_exit; cbn [fst snd fs]; rewrite new_events_app; discriminate.
  - cbn [snd]. now rewrite new_events_refl.
Qed.

(** X7.  A preset name outside [light], [medium] and [strong] makes
    the call raise the [KeyError] that names it, whatever the other
    arguments are, with the file system untouched and nothing done. *)
Theorem unknown_preset_touches_nothing input output preset target w :
  preset ∉ Presets.known_presets ->
  run input output preset target w
  = (Raise (KeyError ("Unknown preset: " +:+ preset +:+
                      ". Available: ['light', 'medium', 'strong']")), w).
Proof.
  intros Hn. apply compress_video_no_preset.
  destruct (dict_get_PRESETS_cases preset)
    as [ [ -> | [ -> | -> ] ] | (_ & _ & _ & Hd) ].
  - exfalso. apply Hn. apply list_elem_of_In. cbn. tauto.
  - exfalso. apply Hn. apply list_elem_of_In. cbn. tauto.
  - exfalso. apply Hn. apply list_elem_of_In. cbn. tauto.
  - unfold Presets.get_preset. now rewrite Hd.
Qed.

(** X8.  With a known preset, a call whose probe fails does nothing
    and leaves the file system untouched: an error of the prober is
    raised as it is, streams without a video stream give the
    [ValueError] that names the input, and a file that is not there
    gives [FileNotFoundError]. *)
Theorem probe_failure_touches_nothing input output preset target w cfg :
  Presets.get_preset preset = Ok cfg ->
  (forall e, ffprobe input (fs w) = Raise e ->
             run input output preset target w = (Raise e, w))
  /\ (forall pr,
        ffprobe input (fs w) = Ok pr ->
        Forall (fun s => codec_type s <> "video") (streams pr) ->
        run input output preset target w
        = (Raise (ValueError ("No video stream found in " +:+ input)), w))
  /\ (forall pr,
        ffprobe input (fs w) = Ok pr ->
        Exists (fun s => codec_type s = "video") (streams pr) ->
        fs w !! input = None ->
        run input output preset target w
        = (Raise (FileNotFoundError input), w)).
Proof.
  intros Hp. split; [|split].
  - intros e He. apply compress_video_no_info with cfg; [exact Hp|].
    unfold get_video_info, bind. now rewrite He.
  - intros pr Hpr Hall. apply compress_video_no_info with cfg; [exact Hp|].
    unfold get_video_info, bind. rewrite Hpr.
    destruct (List.find _ (streams pr)) as [vs|] eqn:Ef; [|reflexivity].
    apply List.find_some in Ef as [Hin Hv].
    rewrite Forall_forall in Hall.
    apply list_elem_of_In in Hin. apply Hall in Hin.
    now apply String.eqb_eq in Hv.
  - intros pr Hpr Hex Hno.
    apply compress_video_no_info with cfg; [exact Hp|].
    unfold get_video_info, bind. rewrite Hpr.
    destruct (List.find _ (streams pr)) as [vs|] eqn:Ef.
    + rewrite get_file_size_mb_eq. unfold file_size_mb. now rewrite Hno.
    + exfalso. apply Exists_exists in Hex as (vs & Hin & Hv).
      apply list_elem_of_In in Hin.
      pose proof (List.find_none _ _ Ef vs Hin) as Hf. cbn in Hf.
      rewrite Hv in Hf. discriminate.
Qed.

(** X9.  When the prober reports no [bit_rate], or one below 1000
    bit/s, the source bitrate is taken as zero, and a call without
    [target_mb] then makes the one single-pass encoder run at 1200
    kbit/s: such a source is never copied. *)
Theorem unknown_bitrate_encodes_at_1200 input output preset w cfg pr
    wd h dur kbps size :
  Presets.get_preset preset = Ok cfg ->
  ffprobe input (fs w) = Ok pr ->
  (format_bit_rate pr = None
   \/ exists b, format_bit_rate pr = Some b /\ 0 <= b < 1000) ->
  (get_video_info ffprobe input w).1 = Ok (wd, h, dur, kbps, size) ->
  kbps = 0
  /\ new_events w (run input output preset None w).2
     = [EvRun (cmd_one_pass input output
                 ("scale=-2:" +:+ PyStr.of_int (Presets.max_height cfg))
                 1200 96 (Presets.preset cfg))].
Proof.
  intros Hp Hpr Hb Hi.
  assert (Hk : kbps = 0).
  { revert Hi. unfold get_video_info, bind. rewrite Hpr.
    destruct (List.find _ (streams pr)); [|discriminate].
    rewrite get_file_size_mb_eq.
    destruct (file_size_mb (fs w) input); [|discriminate].
    cbn. intros [= _ _ _ <- _].
    destruct Hb as [->|(b & -> & Hb)]; cbn; [reflexivity|].
    apply Z.div_small. lia. }
  split; [exact Hk|]. subst kbps.
  pose proof (compress_video_events os_name ffmpeg ffprobe
                input output preset None w cfg wd h dur 0 size Hp Hi) as H.
  exact H.
Qed.

End WholeRuns.

(** ** Products that binary64 holds exactly *)

Section ExactProducts.
Import PyFloat.

Lemma iter_pos_nat {A} (f : A -> A) (p : positive) (x : A) :
  SpecFloat.iter_pos f p x = Nat.iter (Pos.to_nat p) f x.
Proof.
  revert x. induction p as [p IH|p IH|]; intros x; cbn [SpecFloat.iter_pos].
  - rewrite !IH, Pos2Nat.inj_xI.
    replace (S (2 * Pos.to_nat p))
      with (Pos.to_nat p + (Pos.to_nat p + 1))%nat by lia.
    now rewrite !Nat.iter_add.
  - rewrite !IH, Pos2Nat.inj_xO.
    replace (2 * Pos.to_nat p)%nat with (Pos.to_nat p + Pos.to_nat p)%nat
      by lia.
    now rewrite Nat.iter_add.
  - reflexivity.
Qed.

Lemma pos_iter_nat {A} (f : A -> A) (p : positive) (x : A) :
  Pos.iter f x p = Nat.iter (Pos.to_nat p) f x.
Proof.
  induction p as [|p IH] using Pos.peano_ind.
  - reflexivity.
  - rewrite Pos.iter_succ, Pos2Nat.inj_succ. cbn [Nat.iter]. now rewrite IH.
Qed.

(** Shifting out zeros loses nothing. *)
Lemma shr_zeros (a sh : positive) :
  SpecFloat.iter_pos shr_1 sh
    {| shr_m := Z.pos (Pos.iter xO a sh); shr_r := false; shr_s := false |}
  = {| shr_m := Z.pos a; shr_r := false; shr_s := false |}.
Proof.
  rewrite iter_pos_nat, pos_iter_nat.
  induction (Pos.to_nat sh) as [|n IH]; [reflexivity|].
  rewrite Nat.iter_succ_r. cbn [Nat.iter]. exact IH.
Qed.

(** A product that is a full-width mantissa [a] followed by [sh] zeros
    rounds to [a], [sh] binades up. *)
Lemma binary_round_aux_exact (s : bool) (P a sh : positive) (E : Z) :
  Z.pos P = Z.pos a * 2 ^ Z.pos sh ->
  digits2_pos a = 53%positive ->
  -1074 <= E + Z.pos sh <= 971 ->
  binary_round_aux prec emax s (Z.pos P) E loc_Exact
  = S754_finite s a (E + Z.pos sh).
Proof.
  intros HP Hd He.
  assert (P = Pos.iter xO a sh) as ->.
  { apply Pos2Z.inj. now rewrite pos_iter_xO_val. }
  unfold binary_round_aux.
  unfold shr_fexp at 1. cbn [Zdigits2 shr_record_of_loc].
  rewrite digits2_pos_iter_xO, Hd.
  assert (Hsh : fexp prec emax (Z.pos (53 + sh) + E) - E = Z.pos sh)
    by (unfold fexp, emin, prec, emax; lia).
  rewrite Hsh. cbn [shr]. rewrite shr_zeros.
  cbn [shr_m loc_of_shr_record round_nearest_even].
  rewrite shr_fexp_canonical by (assumption || lia).
  cbn [shr_m]. unfold prec, emax.
  destruct (Z.leb_spec (E + Z.pos sh) (1024 - 53)); [reflexivity|lia].
Qed.

(** Halving is exact. *)
Lemma mul_half_exact (s : bool) (m : positive) (e : Z) :
  digits2_pos m = 53%positive -> -1073 <= e <= 971 ->
  mul (S754_finite s m e) lit_0_5 = S754_finite s m (e - 1).
Proof.
  intros Hd He. unfold mul, lit_0_5. cbn [SFmul].
  rewrite xorb_false_r.
  rewrite (binary_round_aux_exact s _ m 52 (e + -53)); try assumption.
  - f_equal. lia.
  - rewrite Pos2Z.inj_mul. reflexivity.
  - lia.
Qed.

Lemma quality_video_kbps_half (n : Z) :
  0 < n <= 2 ^ 53 ->
  Compressor.quality_video_kbps n lit_0_5 = Ok (Z.max (n / 2) 350).
Proof.
  intros Hn.
  destruct (Z.eq_dec n (2 ^ 53)) as [->|Hne]; [reflexivity|].
  destruct n as [|p|p]; try lia.
  destruct (of_int_exact p ltac:(lia)) as (m & e & Ho & Hd & He & Hv).
  unfold Compressor.quality_video_kbps.
  cbn [Z.eqb]. unfold int_mul_float. rewrite Ho. cbn [res_bind].
  rewrite mul_half_exact by (assumption || lia).
  cbn [to_int res_bind]. do 2 f_equal.
  destruct (e - 1) as [|q|q] eqn:Eq; try lia.
  rewrite Hv.
  replace (Z.pos q) with (- e + 1) by lia.
  rewrite Z.pow_add_r by lia. change (2 ^ 1) with 2.
  rewrite (Z.mul_comm (Z.pos p)).
  rewrite Z.div_mul_cancel_l; [reflexivity|lia|].
  apply Z.pow_nonzero; lia.
Qed.

Lemma digits2_pos_unique (a : positive) (d : Z) :
  2 ^ (d - 1) <= Z.pos a < 2 ^ d -> 1 <= d -> Z.pos (digits2_pos a) = d.
Proof.
  intros [Hlo Hhi] Hd. pose proof (digits2_pos_bounds a) as [Hlo' Hhi'].
  destruct (Z.lt_trichotomy (Z.pos (digits2_pos a)) d) as [Hlt|[Heq|Hgt]];
    [|assumption|].
  - assert (2 ^ Z.pos (digits2_pos a) <= 2 ^ (d - 1))
      by (apply Z.pow_le_mono_r; lia). lia.
  - assert (2 ^ d <= 2 ^ (Z.pos (digits2_pos a) - 1))
      by (apply Z.pow_le_mono_r; lia). lia.
Qed.

(** Three quarters of an integer below [2^51] are exact. *)
Lemma quality_video_kbps_three_quarters (n : Z) :
  0 < n < 2 ^ 51 ->
  Compressor.quality_video_kbps n lit_0_75 = Ok (Z.max (3 * n / 4) 350).
Proof.
  intros Hn. destruct n as [|p|p]; try lia.
  destruct (of_int_exact p ltac:(lia)) as (m & e & Ho & Hd & He & Hv).
  pose proof (digits2_pos_bounds m) as [Hm52 Hm53]. rewrite Hd in Hm52, Hm53.
  change (2 ^ (53 - 1)) with 4503599627370496 in Hm52.
  change (2 ^ 53) with 9007199254740992 in Hm53.
  change (2 ^ 51) with 2251799813685248 in Hn.
  (* the mantissa ends in two zeros at least *)
  assert (He2 : e <= -2).
  { destruct (Z_le_gt_dec e (-2)) as [|Hgt]; [assumption|exfalso].
    assert (Hc : e = 0 \/ e = -1) by lia.
    destruct Hc as [->| ->]; cbn in Hv; lia. }
  set (X := 2 ^ (- e - 2)).
  assert (HX : 0 < X) by (apply Z.pow_pos_nonneg; lia).
  assert (HeX : 2 ^ (- e) = 4 * X).
  { unfold X. replace (- e) with (2 + (- e - 2)) at 1 by lia.
    now rewrite Z.pow_add_r by lia. }
  rewrite HeX in Hv.
  unfold Compressor.quality_video_kbps.
  cbn [Z.eqb]. unfold int_mul_float. rewrite Ho. cbn [res_bind].
  unfold mul, lit_0_75. cbn [SFmul xorb].
  destruct (Z_lt_ge_dec (3 * Z.pos m) 18014398509481984) as [Hlt|Hge].
  - (* the product has 105 bits *)
    set (a := Z.to_pos (6 * (Z.pos p * X))).
    assert (Ha : Z.pos a = 6 * (Z.pos p * X)) by (unfold a; lia).
    rewrite (binary_round_aux_exact false _ a 52 (e + -53)).
    + cbn [to_int res_bind]. do 2 f_equal.
      destruct (e + -53 + 52) as [|q|q] eqn:Eq; try lia.
      rewrite Ha.
      replace (2 ^ Z.pos q) with (8 * X).
      2:{ replace (Z.pos q) with (3 + (- e - 2)) by lia.
          now rewrite Z.pow_add_r by lia. }
      replace (6 * (Z.pos p * X)) with ((6 * Z.pos p) * X) by lia.
      rewrite Z.div_mul_cancel_r by lia.
      replace (6 * Z.pos p) with (2 * (3 * Z.pos p)) by lia.
      change 8 with (2 * 4). now rewrite Z.div_mul_cancel_l by lia.
    + rewrite Pos2Z.inj_mul, Ha.
      change (2 ^ 52) with 4503599627370496. lia.
    + apply Pos2Z.inj. apply digits2_pos_unique; [|lia].
      change (2 ^ (53 - 1)) with 4503599627370496.
      change (2 ^ 53) with 9007199254740992. lia.
    + lia.
  - (* the product has 106 bits *)
    set (a := Z.to_pos (3 * (Z.pos p * X))).
    assert (Ha : Z.pos a = 3 * (Z.pos p * X)) by (unfold a; lia).
    rewrite (binary_round_aux_exact false _ a 53 (e + -53)).
    + cbn [to_int res_bind]. do 2 f_equal.
      destruct (e + -53 + 53) as [|q|q] eqn:Eq; try lia.
      rewrite Ha.
      replace (2 ^ Z.pos q) with (4 * X).
      2:{ replace (Z.pos q) with (- e) by lia. now rewrite HeX. }
      replace (3 * (Z.pos p * X)) with ((3 * Z.pos p) * X) by lia.
      now rewrite Z.div_mul_cancel_r by lia.
    + rewrite Pos2Z.inj_mul, Ha.
      change (2 ^ 53) with 9007199254740992. lia.
    + apply Pos2Z.inj. apply digits2_pos_unique; [|lia].
      change (2 ^ (53 - 1)) with 4503599627370496.
      change (2 ^ 53) with 9007199254740992. lia.
    + lia.
Qed.

End ExactProducts.

(** ** What the presets do to the bitrate *)

Section PresetRuns.
Import Compressor.
Variable os_name : string.
Variable ffmpeg : list string -> gmap string Z -> Z * gmap string Z.
Variable ffprobe : string -> gmap string Z -> Res Probe.

(** X10.  With the [strong] preset and no [target_mb], a source of at
    most 350 kbit/s is copied and every other source (up to [2^53]
    kbit/s) is encoded in one pass, at 480 lines and at half its bitrate
    rounded down, or at 350 kbit/s when that is more. *)
Theorem strong_preset_halves input output w wd h dur kbps size :
  (get_video_info ffprobe input w).1 = Ok (wd, h, dur, kbps, size) ->
  0 < kbps <= 2 ^ 53 ->
  new_events w (compress_video os_name ffmpeg ffprobe
                  input output "strong" None w).2
  = if kbps <=? 350 then [EvCopy input output]
    else [EvRun (cmd_one_pass input output "scale=-2:480"
                   (Z.max (kbps / 2) 350) 96 "medium")].
Proof.
  intros Hi Hk.
  pose proof (compress_video_events os_name ffmpeg ffprobe
                input output "strong" None w _ wd h dur kbps size
                eq_refl Hi) as H.
  cbv zeta in H. unfold planned in H.
  cbn [under_target res_bind truthy Presets.video_kbps_mult] in H.
  rewrite (quality_video_kbps_half kbps Hk) in H. cbn [res_bind] in H.
  destruct (Z.eqb_spec kbps 0) as [|_]; [lia|]. cbn [negb andb] in H.
  assert (Hhalf : kbps / 2 < kbps) by (apply Z.div_lt; lia).
  destruct (Z.leb_spec kbps 350);
    destruct (Z.leb_spec kbps (Z.max (kbps / 2) 350)); try lia; exact H.
Qed.

(** X11.  With the [medium] preset and no [target_mb], a source of at
    most 350 kbit/s is copied and every other source (below [2^51]
    kbit/s) is encoded in one pass, at 720 lines and at three quarters of
    its bitrate rounded down, or at 350 kbit/s when that is more. *)
Theorem medium_preset_three_quarters input output w wd h dur kbps size :
  (get_video_info ffprobe input w).1 = Ok (wd, h, dur, kbps, size) ->
  0 < kbps < 2 ^ 51 ->
  new_events w (compress_video os_name ffmpeg ffprobe
                  input output "medium" None w).2
  = if kbps <=? 350 then [EvCopy input output]
    else [EvRun (cmd_one_pass input output "scale=-2:720"
                   (Z.max (3 * kbps / 4) 350) 96 "slow")].
Proof.
  intros Hi Hk.
  pose proof (compress_video_events os_name ffmpeg ffprobe
                input output "medium" None w _ wd h dur kbps size
                eq_refl Hi) as H.
  cbv zeta in H. unfold planned in H.
  cbn [under_target res_bind truthy Presets.video_kbps_mult] in H.
  rewrite (quality_video_kbps_three_quarters kbps Hk) in H.
  cbn [res_bind] in H.
  destruct (Z.eqb_spec kbps 0) as [|_]; [lia|]. cbn [negb andb] in H.
  assert (Hq : 3 * kbps / 4 < kbps)
    by (apply Z.div_lt_upper_bound; lia).
  destruct (Z.leb_spec kbps 350);
    destruct (Z.leb_spec kbps (Z.max (3 * kbps / 4) 350)); try lia; exact H.
Qed.

Lemma binary_round_aux_sign (s : bool) (mx ex : Z) (lx : location) :
  match binary_round_aux PyFloat.prec PyFloat.emax s mx ex lx with
  | S754_zero s' | S754_infinity s' | S754_finite s' _ _ => s' = s
  | S754_nan => True
  end.
Proof.
  unfold binary_round_aux.
  destruct (shr_fexp _ _ mx ex lx) as [mrs' e'].
  destruct (shr_fexp _ _ _ e' loc_Exact) as [mrs'' e''].
  destruct (shr_m mrs''); [reflexivity| |exact I].
  now destruct (e'' <=? _).
Qed.

Lemma to_int_negative (x : PyFloat.float) (k : Z) :
  match x with
  | S754_zero _ | S754_finite true _ _ => True
  | _ => False
  end ->
  PyFloat.to_int x = Ok k -> k <= 0.
Proof.
  destruct x as [s|s| |[|] m e]; cbn; try contradiction; intros _ [= <-].
  - lia.
  - destruct e as [|p|p].
    + lia.
    + assert (0 < 2 ^ Z.pos p) by (apply Z.pow_pos_nonneg; lia). nia.
    + assert (0 <= Z.pos m / 2 ^ Z.pos p)
        by (apply Z.div_pos; [lia|apply Z.pow_pos_nonneg; lia]).
      lia.
Qed.

(** X12.  A negative [target_mb] is not refused: for a duration above
    zero the bitrate of the target-size branch, when it is computed, is
    the floor of 300 kbit/s. *)
Theorem negative_target_gives_floor (t : Z) (dur : PyFloat.float) (v : Z) :
  t < 0 ->
  float_positive dur ->
  target_video_kbps t dur 96 = Ok v ->
  v = 300.
Proof.
  intros Ht Hdur. unfold target_video_kbps, PyFloat.int_truediv_float.
  destruct t as [|p|p]; try lia.
  change (Z.neg p * 8192) with (Z.neg (p * 8192)).
  unfold PyFloat.of_int. cbn [binary_normalize]. unfold binary_round.
  destruct (shl_align _ _ _) as [mz ez].
  pose proof (binary_round_aux_sign true (Z.pos mz) ez loc_Exact) as Hs.
  destruct (binary_round_aux _ _ true (Z.pos mz) ez loc_Exact)
    as [s|s| |s m e]; cbn [res_bind]; try discriminate.
  - (* the dividend is a zero *)
    subst s. destruct dur as [sd|[|]| |[|] md ed]; try contradiction;
      cbn; intros [= <-]; reflexivity.
  - destruct dur as [sd|[|]| |[|] md ed]; try contradiction; discriminate.
  - subst s. destruct dur as [sd|[|]| |[|] md ed]; try contradiction.
    + cbn. intros [= <-]. reflexivity.
    + unfold PyFloat.truediv. cbn [res_bind SFdiv].
      destruct (SFdiv_core_binary _ _ _ _ _ _) as [[mq eq] lq].
      pose proof (binary_round_aux_sign (xorb true false) mq eq lq) as Hq.
      destruct (PyFloat.to_int _) as [k|] eqn:Ek; [|discriminate].
      cbn [res_bind]. intros [= <-].
      assert (k <= 0).
      { eapply to_int_negative; [|exact Ek].
        destruct (binary_round_aux _ _ _ mq eq lq) as [s|s| |s m' e'];
          cbn in Ek; try discriminate; [exact I|].
        cbn in Hq. now subst s. }
      lia.
Qed.

End PresetRuns.

(** ** File names *)

Section FileNames.

Lemma string_app_assoc (s t u : string) : (s +:+ t) +:+ u = s +:+ t +:+ u.
Proof.
  apply list_ascii_of_string_inj.
  rewrite !list_ascii_of_string_app. symmetry. apply app_assoc.
Qed.

Lemma rfind_from_app (c : ascii) (l1 l2 : list ascii) (i : nat) :
  PyStr.rfind_from c (l1 ++ l2) i
  = match PyStr.rfind_from c l2 (i + length l1)%nat with
    | Some j => Some j
    | None => PyStr.rfind_from c l1 i
    end.
Proof.
  revert i. induction l1 as [|x l1 IH]; intros i;
    cbn [app PyStr.rfind_from length].
  - rewrite Nat.add_0_r. now destruct (PyStr.rfind_from c l2 i).
  - rewrite IH.
    replace (S i + length l1)%nat with (i + S (length l1))%nat by lia.
    now destruct (PyStr.rfind_from c l2 _).
Qed.

Lemma rfind_from_bounds (c : ascii) (l : list ascii) (i j : nat) :
  PyStr.rfind_from c l i = Some j -> (i <= j < i + length l)%nat.
Proof.
  revert i. induction l as [|x l IH]; intros i; cbn [PyStr.rfind_from length].
  - discriminate.
  - destruct (PyStr.rfind_from c l (S i)) as [k|] eqn:E.
    + intros [= <-]. apply IH in E. lia.
    + destruct (Ascii.eqb x c); [|discriminate]. intros [= <-]. lia.
Qed.

Lemma rfind_bounds (c : ascii) (l : list ascii) :
  -1 <= PyStr.rfind c l < Z.of_nat (length l).
Proof.
  unfold PyStr.rfind.
  destruct (PyStr.rfind_from c l 0) as [j|] eqn:E; [|lia].
  apply rfind_from_bounds in E. lia.
Qed.

Local Abbreviation sfx := (list_ascii_of_string "_compressed.mp4").

Lemma rfind_dot_sfx (l : list ascii) :
  PyStr.rfind "."%char (l ++ sfx) = Z.of_nat (length l + 11).
Proof.
  unfold PyStr.rfind. rewrite rfind_from_app. cbn. f_equal. lia.
Qed.

Lemma rfind_other_sfx (c : ascii) (l : list ascii) :
  PyStr.rfind_from c sfx (length l) = None ->
  PyStr.rfind c (l ++ sfx) = PyStr.rfind c l.
Proof.
  intros H. unfold PyStr.rfind. rewrite rfind_from_app.
  change (0 + length l)%nat with (length l). now rewrite H.
Qed.

Lemma all_dots_app (l1 l2 : list ascii) :
  Utils.all_dots (l1 ++ l2) = Utils.all_dots l1 && Utils.all_dots l2.
Proof.
  induction l1 as [|x l1 IH]; cbn [app Utils.all_dots]; [reflexivity|].
  now rewrite IH, andb_assoc.
Qed.

(** The name that [choose_file] and [process_video] build splits at its
    last dot, whatever precedes [_compressed.mp4]. *)
Lemma splitext_compressed (os_name x : string) :
  Utils.splitext os_name (x +:+ "_compressed.mp4")
  = (x +:+ "_compressed", ".mp4").
Proof.
  unfold Utils.splitext. rewrite list_ascii_of_string_app.
  set (l := list_ascii_of_string x).
  rewrite rfind_dot_sfx.
  rewrite !(rfind_other_sfx _ l) by reflexivity.
  pose proof (rfind_bounds "/"%char l) as Hs.
  pose proof (rfind_bounds (ascii_of_nat 92) l) as Hb.
  set (sep := if String.eqb os_name "nt"
              then Z.max (PyStr.rfind (ascii_of_nat 92) l)
                         (PyStr.rfind "/"%char l)
              else PyStr.rfind "/"%char l).
  assert (Hsep : -1 <= sep < Z.of_nat (length l))
    by (unfold sep; destruct (String.eqb os_name "nt"); lia).
  clearbody sep. clear Hs Hb.
  destruct (Z.ltb_spec sep (Z.of_nat (length l + 11))); [|lia].
  rewrite Nat2Z.id.
  set (fi := Z.to_nat (sep + 1)).
  assert (Hfi : (fi <= length l)%nat) by (unfold fi; lia).
  clearbody fi.
  assert (Hdots : Utils.all_dots
            (firstn (length l + 11 - fi) (skipn fi (l ++ sfx))) = false).
  { rewrite skipn_app.
    replace (fi - length l)%nat with 0%nat by lia. cbn [skipn].
    rewrite firstn_app, length_skipn.
    replace (length l + 11 - fi - (length l - fi))%nat with 11%nat by lia.
    rewrite all_dots_app. apply andb_false_r. }
  rewrite Hdots. f_equal.
  - apply list_ascii_of_string_inj.
    rewrite list_ascii_of_string_of_list_ascii, list_ascii_of_string_app.
    rewrite firstn_app.
    rewrite firstn_all2 by lia.
    now replace (length l + 11 - length l)%nat with 11%nat by lia.
  - rewrite skipn_app, skipn_all2 by lia.
    now replace (length l + 11 - length l)%nat with 11%nat by lia.
Qed.

Lemma current_preset_set_status (t : Gui.Status) (a : Gui.App) :
  Gui.current_preset (Gui.set_status t a) = Gui.current_preset a.
Proof. unfold Gui.set_status. now destruct (Gui.ui a). Qed.

Lemma current_preset_log_msg (t : Gui.LogLine) (a : Gui.App) :
  Gui.current_preset (Gui.log_msg t a) = Gui.current_preset a.
Proof. unfold Gui.log_msg. now destruct (Gui.ui a). Qed.

Lemma get_target_mb_app (a : Gui.App) :
  Gui.task_queue (Gui.get_target_mb a).2 = Gui.task_queue a
  /\ Gui.current_preset (Gui.get_target_mb a).2 = Gui.current_preset a.
Proof.
  unfold Gui.get_target_mb.
  destruct (String.eqb _ ""); [now split|].
  destruct (PyStr.to_int _); [now split|]. cbn [snd].
  split; [apply task_queue_set_status|apply current_preset_set_status].
Qed.

Variable os_name : string.
Variable files : gmap string Z.

Lemma output_filename_loop_spec base ext fuel counter p :
  Utils.output_filename_loop (Gui.path_exists files) base ext fuel counter
  = Some p ->
  exists c, counter <= c < counter + Z.of_nat fuel
            /\ p = Utils.numbered base ext c
            /\ Gui.path_exists files p = false
            /\ forall c', counter <= c' < c ->
                 Gui.path_exists files (Utils.numbered base ext c') = true.
Proof.
  revert counter. induction fuel as [|fuel IH]; intros counter;
    cbn [Utils.output_filename_loop]; [discriminate|].
  destruct (Gui.path_exists files (Utils.numbered base ext counter)) eqn:E;
    cbn [negb].
  - intros H. apply IH in H as (c & Hc & -> & Hfree & Hmin).
    exists c. repeat split; try lia; try assumption.
    intros c' Hc'. destruct (decide (c' = counter)) as [->|]; [exact E|].
    apply Hmin. lia.
  - intros [= <-]. exists counter. repeat split; try lia; assumption.
Qed.

Lemma output_filename_some (path p : string) :
  Gui.output_filename os_name files path = Some p ->
  Gui.path_exists files p = false
  /\ if Gui.path_exists files path then
       exists c,
         1 <= c <= Z.of_nat (size files) + 1
         /\ p = Utils.numbered (Utils.splitext os_name path).1
                               (Utils.splitext os_name path).2 c
         /\ forall c', 1 <= c' < c ->
              Gui.path_exists files
                (Utils.numbered (Utils.splitext os_name path).1
                                (Utils.splitext os_name path).2 c') = true
     else p = path.
Proof.
  intros Hp.
  unfold Gui.output_filename, Utils.output_filename_fuel in Hp.
  destruct (Gui.path_exists files path) eqn:E; cbn [negb] in Hp.
  - destruct (Utils.splitext os_name path) as [base ext]. cbn [fst snd].
    apply output_filename_loop_spec in Hp as (c & Hc & -> & Hfree & Hmin).
    split; [exact Hfree|]. exists c. repeat split; try lia. exact Hmin.
  - injection Hp as <-. split; [exact E|reflexivity].
Qed.

(** X13.  [output_filename] always returns, and what it returns names
    no existing file: the path itself when that is free, and otherwise
    [base_c.ext] for the least counter [c >= 1] whose name is free, which
    is at most one more than the number of files. *)
Theorem output_filename_fresh (path : string) :
  exists p,
    Gui.output_filename os_name files path = Some p
    /\ Gui.path_exists files p = false
    /\ if Gui.path_exists files path then
         exists c,
           1 <= c <= Z.of_nat (size files) + 1
           /\ p = Utils.numbered (Utils.splitext os_name path).1
                                 (Utils.splitext os_name path).2 c
           /\ forall c', 1 <= c' < c ->
                Gui.path_exists files
                  (Utils.numbered (Utils.splitext os_name path).1
                                  (Utils.splitext os_name path).2 c') = true
       else p = path.
Proof.
  destruct (output_filename_total os_name files path) as [p Hp].
  exists p. split; [exact Hp|]. now apply output_filename_some.
Qed.

(** What [choose_file] hands to [output_filename]. *)
Lemma output_filename_compressed (x p : string) :
  Gui.output_filename os_name files (x +:+ "_compressed.mp4") = Some p ->
  Gui.path_exists files p = false
  /\ (p = x +:+ "_compressed.mp4"
      \/ exists c,
           1 <= c <= Z.of_nat (size files) + 1
           /\ p = x +:+ "_compressed_" +:+ PyStr.of_int c +:+ ".mp4"
           /\ Gui.path_exists files (x +:+ "_compressed.mp4") = true
           /\ forall c', 1 <= c' < c ->
                Gui.path_exists files
                  (x +:+ "_compressed_" +:+ PyStr.of_int c' +:+ ".mp4")
                = true).
Proof.
  intros Hp.
  assert (Hn : forall c, Utils.numbered (x +:+ "_compressed") ".mp4" c
                         = x +:+ "_compressed_" +:+ PyStr.of_int c +:+ ".mp4").
  { intros c. unfold Utils.numbered. rewrite string_app_assoc.
    reflexivity. }
  destruct (output_filename_some _ _ Hp) as (Hfree & Hshape).
  split; [exact Hfree|].
  rewrite splitext_compressed in Hshape. cbn [fst snd] in Hshape.
  destruct (Gui.path_exists files (x +:+ "_compressed.mp4")).
  - destruct Hshape as (c & Hc & -> & Hmin). right. exists c.
    rewrite Hn. repeat split; try lia.
    intros c' Hc'. rewrite <- Hn. now apply Hmin.
  - now left.
Qed.

(** X14.  When the file dialog gives a path, [choose_file] returns
    having put exactly one job at the back of the queue: the chosen file,
    the preset in force, the target read from the entry, and an output
    that names no existing file, [<stem><preset>_compressed.mp4] or, when
    that exists, [<stem><preset>_compressed_<c>.mp4] with the least free
    counter [c >= 1].  A dismissed dialog leaves the queue as it was. *)
Theorem choose_file_enqueues_fresh_output (file_path : string) (a : Gui.App) :
  exists a',
    Gui.choose_file os_name files file_path a = Some a'
    /\ Gui.current_preset a' = Gui.current_preset a
    /\ if String.eqb file_path "" then
         Gui.task_queue a' = Gui.task_queue a
       else
         let stem := (Utils.splitext os_name file_path).1
                     +:+ Gui.current_preset a in
         exists out,
           Gui.task_queue a'
           = Gui.task_queue a
             ++ [(file_path, out, Gui.current_preset a,
                  (Gui.get_target_mb a).1)]
           /\ Gui.path_exists files out = false
           /\ (out = stem +:+ "_compressed.mp4"
               \/ exists c,
                    1 <= c <= Z.of_nat (size files) + 1
                    /\ out = stem +:+ "_compressed_" +:+ PyStr.of_int c
                             +:+ ".mp4"
                    /\ Gui.path_exists files (stem +:+ "_compressed.mp4")
                       = true
                    /\ forall c', 1 <= c' < c ->
                         Gui.path_exists files
                           (stem +:+ "_compressed_" +:+ PyStr.of_int c'
                            +:+ ".mp4") = true).
Proof.
  unfold Gui.choose_file.
  destruct (String.eqb file_path "").
  - eexists. split; [reflexivity|]. split.
    + now rewrite current_preset_log_msg, current_preset_set_status.
    + rewrite task_queue_log_msg. apply task_queue_set_status.
  - cbv zeta. rewrite <- string_app_assoc.
    set (stem := (Utils.splitext os_name file_path).1
                 +:+ Gui.current_preset a).
    destruct (Gui.output_filename os_name files (stem +:+ "_compressed.mp4"))
      as [out|] eqn:Hout;
      [|now destruct (output_filename_total os_name files
                        (stem +:+ "_compressed.mp4")) as [? ?]; congruence].
    cbn [mbind option_bind].
    apply output_filename_compressed in Hout as [Hfree Hshape].
    destruct (get_target_mb_app a) as [Hq Hp].
    destruct (Gui.get_target_mb a) as [t a1]. cbn [fst snd] in *.
    eexists. split; [reflexivity|]. split.
    + cbn [Gui.queue_put Gui.current_preset].
      now rewrite current_preset_log_msg.
    + exists out. split; [|split; assumption].
      cbn [Gui.queue_put Gui.task_queue]. f_equal.
      now rewrite task_queue_log_msg.
Qed.

(** X15.  [process_video] does with a downloaded file what
    [choose_file] does with a chosen one, the empty path included: it
    returns having queued one job whose output names no existing file;
    when the download raised, the exception ends the thread and nothing is
    queued. *)
Theorem process_video_enqueues_fresh_output
    (downloaded : Res string) (a : Gui.App) :
  match downloaded with
  | Raise e => process_video os_name files downloaded a = Some (Raise e)
  | Ok input_file =>
      exists a' out,
        process_video os_name files downloaded a = Some (Ok a')
        /\ Gui.task_queue a'
           = Gui.task_queue a
             ++ [(input_file, out, Gui.current_preset a,
                  (Gui.get_target_mb a).1)]
        /\ Gui.path_exists files out = false
        /\ (input_file <> "" ->
            Gui.choose_file os_name files input_file a = Some a')
  end.
Proof.
  destruct downloaded as [input_file|e]; [|reflexivity].
  unfold process_video, Gui.choose_file.
  destruct (Utils.splitext os_name input_file) as [base ext]. cbn [fst].
  rewrite <- string_app_assoc.
  destruct (Gui.output_filename os_name files _) as [out|] eqn:Hout;
    [|now destruct (output_filename_total os_name files
                      ((base +:+ Gui.current_preset a)
                       +:+ "_compressed.mp4")) as [? ?]; congruence].
  cbn [mbind option_bind].
  apply output_filename_compressed in Hout as [Hfree _].
  destruct (get_target_mb_app a) as [Hq _].
  destruct (Gui.get_target_mb a) as [t a1]. cbn [fst snd] in *.
  eexists _, out. split; [reflexivity|]. split; [|split].
  - cbn [Gui.queue_put Gui.task_queue]. f_equal.
    now rewrite task_queue_log_msg.
  - exact Hfree.
  - intros Hne. destruct (String.eqb_spec input_file ""); [contradiction|].
    reflexivity.
Qed.

End FileNames.

(** ** The target entry *)

Section TargetEntry.
Import PyStr.

Local Abbreviation chars := list_ascii_of_string.
Local Abbreviation blank := (fun c => is_space c = true).
Local Abbreviation solid := (fun c => is_space c = false).

Lemma lstrip_blank (l1 l2 : list ascii) :
  Forall blank l1 -> lstrip (l1 ++ l2) = lstrip l2.
Proof.
  induction 1 as [|c l1 Hc _ IH]; cbn [app lstrip]; [reflexivity|].
  now rewrite Hc.
Qed.

Lemma lstrip_solid (l : list ascii) : Forall solid l -> lstrip l = l.
Proof.
  destruct 1 as [|c l Hc _]; cbn [lstrip]; [reflexivity|]. now rewrite Hc.
Qed.

(** [strip] takes the blanks off both ends of a text that has none
    inside. *)
Lemma strip_padded (pre s post : string) :
  Forall blank (chars pre) -> Forall blank (chars post) ->
  Forall solid (chars s) -> s <> "" ->
  strip (pre +:+ s +:+ post) = s.
Proof.
  intros Hpre Hpost Hs Hne. unfold strip.
  rewrite !list_ascii_of_string_app.
  rewrite lstrip_blank by assumption.
  assert (Hl : lstrip (chars s ++ chars post) = chars s ++ chars post).
  { destruct (chars s) as [|c l] eqn:E.
    - exfalso. apply Hne. now apply list_ascii_of_string_inj.
    - apply Forall_cons in Hs as [Hc _]. cbn [app lstrip]. now rewrite Hc. }
  rewrite Hl, rev_app_distr.
  rewrite lstrip_blank by (now apply Forall_rev).
  rewrite lstrip_solid by (now apply Forall_rev).
  now rewrite rev_involutive, string_of_list_ascii_of_string.
Qed.

Lemma strip_solid (s : string) :
  Forall solid (chars s) -> s <> "" -> strip s = s.
Proof.
  intros Hs Hne.
  pose proof (strip_padded "" s "" (List.Forall_nil _) (List.Forall_nil _)
                Hs Hne) as H.
  replace ("" +:+ s +:+ "") with s in H; [exact H|].
  apply list_ascii_of_string_inj.
  rewrite !list_ascii_of_string_app. cbn [list_ascii_of_string app].
  now rewrite app_nil_r.
Qed.

Lemma digits_solid (d : Decimal.uint) :
  Forall solid (chars (NilEmpty.string_of_uint d)).
Proof.
  induction d; cbn [NilEmpty.string_of_uint list_ascii_of_string];
    constructor; (reflexivity || assumption).
Qed.

Lemma uint_solid (d : Decimal.uint) :
  Forall solid (chars (NilZero.string_of_uint d))
  /\ NilZero.string_of_uint d <> "".
Proof.
  destruct d; unfold NilZero.string_of_uint; cbv iota;
    (split; [|discriminate]);
    [repeat constructor|apply digits_solid..].
Qed.

Lemma of_int_solid (n : Z) : Forall solid (chars (of_int n)) /\ of_int n <> "".
Proof.
  unfold of_int, NilZero.string_of_int.
  destruct (Z.to_int n) as [d|d]; [apply uint_solid|].
  split; [|discriminate].
  cbn [list_ascii_of_string]. constructor; [reflexivity|apply uint_solid].
Qed.

Lemma parse_digits_acc (d : Decimal.uint) (acc : positive) :
  parse_digits (Z.pos acc) true (chars (NilEmpty.string_of_uint d))
  = Some (Z.pos (Pos.of_uint_acc d acc)).
Proof.
  revert acc.
  induction d as [|d IH|d IH|d IH|d IH|d IH|d IH|d IH|d IH|d IH|d IH];
    intros acc; [reflexivity|..];
    cbn [NilEmpty.string_of_uint list_ascii_of_string parse_digits];
    match goal with
    | |- context [digit_val ?c] =>
        let v := eval vm_compute in (digit_val c) in
        change (digit_val c) with v
    end; cbv iota beta;
    cbn [Pos.of_uint_acc];
    match goal with
    | |- parse_digits ?z true _ = Some (Z.pos (Pos.of_uint_acc _ ?q)) =>
        replace z with (Z.pos q) by lia
    end; apply IH.
Qed.

Lemma parse_digits_zero (d : Decimal.uint) (prev : bool) :
  d <> Nil \/ prev = true ->
  parse_digits 0 prev (chars (NilEmpty.string_of_uint d))
  = Some (Z.of_N (Pos.of_uint d)).
Proof.
  revert prev.
  induction d as [|d IH|d IH|d IH|d IH|d IH|d IH|d IH|d IH|d IH|d IH];
    intros prev Hd;
    [destruct Hd as [Hd| ->]; [contradiction|reflexivity]|..];
    cbn [NilEmpty.string_of_uint list_ascii_of_string parse_digits];
    match goal with
    | |- context [digit_val ?c] =>
        let v := eval vm_compute in (digit_val c) in
        change (digit_val c) with v
    end; cbv iota beta;
    [cbn [Pos.of_uint]; apply IH; now right|..];
    cbn [Pos.of_uint Z.of_N];
    match goal with
    | |- parse_digits ?z true _ = Some (Z.pos (Pos.of_uint_acc _ ?q)) =>
        change z with (Z.pos q)
    end; apply parse_digits_acc.
Qed.

Lemma parse_uint (d : Decimal.uint) :
  match chars (NilZero.string_of_uint d) with
  | "+"%char :: l => parse_digits 0 false l
  | "-"%char :: l => Z.opp <$> parse_digits 0 false l
  | l => parse_digits 0 false l
  end = parse_digits 0 false (chars (NilZero.string_of_uint d)).
Proof.
  destruct d; reflexivity.
Qed.

Lemma parse_nilzero (d : Decimal.uint) :
  parse_digits 0 false (chars (NilZero.string_of_uint d))
  = Some (Z.of_N (Pos.of_uint d)).
Proof.
  destruct d; [reflexivity|..]; unfold NilZero.string_of_uint; cbv iota;
    apply parse_digits_zero; now left.
Qed.

(** [int(str(n))] is [n]. *)
Lemma to_int_of_int (n : Z) : to_int (of_int n) = Some n.
Proof.
  unfold to_int.
  destruct (of_int_solid n) as [Hs Hne].
  rewrite strip_solid by assumption.
  unfold of_int, NilZero.string_of_int.
  destruct n as [|p|p]; [reflexivity|..]; cbn [Z.to_int].
  - rewrite parse_uint, parse_nilzero.
    now rewrite DecimalPos.Unsigned.of_to.
  - cbn [list_ascii_of_string]. rewrite parse_nilzero.
    now rewrite DecimalPos.Unsigned.of_to.
Qed.


End TargetEntry.

(** ** What the pool shows and counts *)

Section PoolLog.
Import Gui.
Variable os_name : string.
Variable ffmpeg : list string -> gmap string Z -> Z * gmap string Z.
Variable ffprobe : string -> gmap string Z -> Res Compressor.Probe.

Local Abbreviation step := (Gui.step os_name ffmpeg ffprobe).
Local Abbreviation end_of :=
  (fun x : nat * Job * Outcome => end_line x.1.2 x.2).

Lemma ui_set_status (t : Status) (a : App) : ui (set_status t a) = ui a.
Proof. unfold set_status. now destruct (ui a) eqn:E. Qed.

Lemma ui_log_msg (t : LogLine) (a : App) : ui (log_msg t a) = ui a.
Proof. unfold log_msg. now destruct (ui a) eqn:E. Qed.

Lemma log_lines_set_status (t : Status) (a : App) :
  log_lines (set_status t a) = log_lines a.
Proof. unfold set_status. now destruct (ui a). Qed.

Lemma log_lines_log_msg (t : LogLine) (a : App) :
  ui a = true -> log_lines (log_msg t a) = log_lines a ++ [t].
Proof. intros H. unfold log_msg. now rewrite H. Qed.

Lemma status_calls_set_status (t : Status) (a : App) :
  ui a = true -> status_calls (set_status t a) = status_calls a ++ [t].
Proof. intros H. unfold set_status. now rewrite H. Qed.

Lemma worker_begin_log (job : Job) (a : App) :
  ui a = true ->
  ui (worker_begin job a) = true
  /\ log_lines (worker_begin job a) = log_lines a ++ [LogCompressing job].
Proof.
  intros H. destruct job as [[[i o] p] t]. unfold worker_begin.
  rewrite ui_log_msg, ui_set_status.
  rewrite log_lines_log_msg by (now rewrite ui_set_status).
  now rewrite log_lines_set_status.
Qed.

Lemma worker_end_log (job : Job) (r : Res PyFloat.float) (a : App) :
  ui a = true ->
  ui (worker_end job r a) = true
  /\ log_lines (worker_end job r a)
     = log_lines a ++ [end_line job (outcome_of r)]
  /\ (task_queue a = [] ->
      last (status_calls (worker_end job r a)) = Some StIdle).
Proof.
  intros H. destruct job as [[[i o] p] t]. unfold worker_end.
  match goal with
  | |- context [match task_queue ?x with _ => _ end] => set (a1 := x)
  end.
  assert (H1 : ui a1 = true
               /\ log_lines a1 = log_lines a ++ [end_line (i, o, p, t)
                                                   (outcome_of r)]
               /\ task_queue a1 = task_queue a).
  { subst a1. destruct r as [s|e]; cbn [outcome_of end_line].
    - now rewrite ui_log_msg, log_lines_log_msg, task_queue_log_msg.
    - rewrite ui_log_msg, ui_set_status, task_queue_log_msg,
        task_queue_set_status.
      rewrite log_lines_log_msg by (now rewrite ui_set_status).
      now rewrite log_lines_set_status. }
  destruct H1 as (Hu & Hl & Hq). clearbody a1.
  destruct (task_queue a1) as [|j q] eqn:E.
  - rewrite ui_set_status, log_lines_set_status.
    repeat split; try assumption.
    intros _. rewrite status_calls_set_status by assumption.
    apply last_snoc.
  - repeat split; try assumption. intros Hq'. congruence.
Qed.

Lemma started_snoc (l : list LogLine) (x : LogLine) :
  started (l ++ [x])
  = started l ++ match x with LogCompressing j => [j] | _ => [] end.
Proof. unfold started. rewrite omap_app. now destruct x. Qed.

Lemma end_lines_snoc (l : list LogLine) (x : LogLine) :
  List.filter is_end_line (l ++ [x])
  = List.filter is_end_line l ++ (if is_end_line x then [x] else []).
Proof. rewrite List.filter_app. cbn. now destruct (is_end_line x). Qed.

Lemma end_line_is_end (job : Job) (o : Outcome) :
  is_end_line (end_line job o) = true
  /\ started [end_line job o] = [].
Proof. destruct job as [[[i out] p] t]. now destruct o. Qed.

(** What a step does to the log, counted against what the log held
    before the pool started: [S0] the jobs announced, [E0] the end
    lines. *)
Lemma step_log (S0 : list Job) (E0 : list LogLine) p p' :
  step p p' ->
  ui (app p) = true
  /\ started (log_lines (app p)) ≡ₚ S0 ++ jobs_of (finished p) ++ running p
  /\ List.filter is_end_line (log_lines (app p))
     ≡ₚ E0 ++ (end_of <$> finished p) ->
  ui (app p') = true
  /\ started (log_lines (app p')) ≡ₚ S0 ++ jobs_of (finished p') ++ running p'
  /\ List.filter is_end_line (log_lines (app p'))
     ≡ₚ E0 ++ (end_of <$> finished p').
Proof.
  intros Hstep (Hu & Hs & He).
  destruct Hstep as [job rest p Hsub|i job q p Hw Hq|i job w p Hw].
  - cbn. now repeat split.
  - destruct (worker_begin_log job (set_queue q (app p)) Hu) as [Hu' Hl].
    pose proof (running_take _ _ job Hw) as Hr.
    unfold running in *. cbn [Gui.app finished workers]. rewrite Hl.
    cbn [set_queue log_lines].
    rewrite started_snoc, end_lines_snoc. cbn. rewrite app_nil_r.
    repeat split; try assumption.
    rewrite Hs, Hr. rewrite <- !app_assoc.
    apply Permutation_app_head, Permutation_app_head.
    symmetry. apply Permutation_cons_append.
  - subst r.
    destruct (worker_end_log job
                (run_job os_name ffmpeg ffprobe job w).1 (app p) Hu)
      as (Hu' & Hl & _).
    pose proof (running_give _ _ job Hw) as Hr.
    destruct (end_line_is_end job
                (outcome_of (run_job os_name ffmpeg ffprobe job w).1))
      as [Hend Hst].
    unfold running in *. cbn [Gui.app finished workers]. rewrite Hl.
    rewrite end_lines_snoc, Hend.
    unfold started in *. rewrite omap_app, Hst, app_nil_r.
    unfold jobs_of in *. rewrite !fmap_app. cbn.
    repeat split; try assumption.
    + rewrite Hs, Hr. rewrite <- !app_assoc. cbn.
      apply Permutation_app_head, Permutation_app_head. reflexivity.
    + rewrite He. now rewrite <- app_assoc.
Qed.

Lemma nsteps_log (S0 : list Job) (E0 : list LogLine) n p p' :
  nsteps step n p p' ->
  ui (app p) = true
  /\ started (log_lines (app p)) ≡ₚ S0 ++ jobs_of (finished p) ++ running p
  /\ List.filter is_end_line (log_lines (app p))
     ≡ₚ E0 ++ (end_of <$> finished p) ->
  ui (app p') = true
  /\ started (log_lines (app p')) ≡ₚ S0 ++ jobs_of (finished p') ++ running p'
  /\ List.filter is_end_line (log_lines (app p'))
     ≡ₚ E0 ++ (end_of <$> finished p').
Proof.
  induction 1 as [p|n p q r Hpq Hqr IH]; [trivial|].
  intros H. apply IH. eapply step_log; eassumption.
Qed.

Lemma running_replicate (count : nat) :
  omap id (replicate count (@None Job)) = [].
Proof. induction count; [reflexivity|assumption]. Qed.

Lemma running_le (p : Pool) : (length (running p) <= length (workers p))%nat.
Proof.
  unfold running. induction (workers p) as [|[j|] ws IH]; cbn; lia.
Qed.



(** X19.  The queue's counter of unfinished tasks is, in every state
    reached from [start_workers(count)], the number of jobs queued plus
    the number held by workers; at most [count] jobs are held at a time;
    and a worker that holds a job finds the counter above zero, so its
    [task_done()] never raises. *)
Theorem task_done_never_underflows (count : nat) (a : App)
    (jobs : list Job) (n : nat) (p : Pool) :
  nsteps step n (start_workers count a jobs) p ->
  unfinished_tasks p
  = (length (task_queue (app p)) + length (running p))%nat
  /\ (length (running p) <= count)%nat
  /\ forall i job, workers p !! i = Some (Some job) ->
       (0 < unfinished_tasks p)%nat.
Proof.
  intros Hn.
  destruct (start_workers_inv count a jobs) as [Hinv0 _].
  destruct (nsteps_inv os_name ffmpeg ffprobe _ _ _ _ _ Hinv0 Hn)
    as [(Hlen & Hun & _) _].
  split; [exact Hun|]. split.
  - rewrite <- Hlen. apply running_le.
  - intros i job Hw. apply running_give in Hw.
    apply Permutation_length in Hw. unfold running in Hun. cbn in Hw. lia.
Qed.

End PoolLog.

(** ** The preset in force *)

Section PresetChoice.
Import Gui.
Variable os_name : string.
Variable files : gmap string Z.

Lemma set_preset_fields (preset : string) (a : App) :
  current_preset (set_preset preset a) = preset
  /\ task_queue (set_preset preset a) = task_queue a
  /\ targetEntry (set_preset preset a) = targetEntry a.
Proof.
  unfold set_preset, set_status. cbn. now destruct (ui a).
Qed.

Lemma get_target_mb_entry (a b : App) :
  targetEntry a = targetEntry b -> (get_target_mb a).1 = (get_target_mb b).1.
Proof.
  intros H. unfold get_target_mb. rewrite H.
  destruct (String.eqb _ ""); [reflexivity|].
  now destruct (PyStr.to_int _).
Qed.

(** X20.  The preset is fixed when a job is queued: after
    [set_preset], the next file chosen is queued under the new preset,
    to the target the entry gives, while the jobs queued before keep the
    preset they were queued with. *)
Theorem set_preset_governs_next_job (preset file_path : string) (a : App) :
  file_path <> "" ->
  exists a' out,
    choose_file os_name files file_path (set_preset preset a) = Some a'
    /\ task_queue a'
       = task_queue a ++ [(file_path, out, preset, (get_target_mb a).1)]
    /\ current_preset a' = preset.
Proof.
  intros Hne.
  destruct (set_preset_fields preset a) as (Hp & Hq & He).
  set (b := set_preset preset a) in *. clearbody b.
  unfold choose_file.
  destruct (String.eqb_spec file_path ""); [contradiction|].
  destruct (output_filename_total os_name files
              ((Utils.splitext os_name file_path).1 +:+ current_preset b
               +:+ "_compressed.mp4")) as [out Hout].
  rewrite Hout. cbn [mbind option_bind].
  destruct (get_target_mb_app b) as [Hq' Hp'].
  rewrite <- (get_target_mb_entry b a He).
  destruct (get_target_mb b) as [t b1]. cbn [fst snd] in *.
  eexists _, out. split; [reflexivity|].
  cbn [queue_put task_queue current_preset].
  rewrite task_queue_log_msg, current_preset_log_msg.
  split; [|congruence]. rewrite Hq', Hq, Hp. reflexivity.
Qed.

End PresetChoice.

(** ** The further properties on concrete runs *)

Section FurtherConcrete.
Import Compressor Scenario.

Local Abbreviation probed := (ffprobe_of (Some 4000000)).

(** The two-pass run of the 20 MiB source towards 10 MB returns the size
    of the file the second pass wrote. *)
Lemma compress_video_returns_output_size_witness :
  exists s n,
    (compress_video "posix" ffmpeg_ok probed
       "in.mp4" "out.mp4" "medium" (Some 10) world0).1 = Ok s
    /\ fs (compress_video "posix" ffmpeg_ok probed
             "in.mp4" "out.mp4" "medium" (Some 10) world0).2 !! "out.mp4"
       = Some n
    /\ PyFloat.int_truediv n (1024 * 1024) = Ok s.
Proof.
  assert (H : exists s,
             (compress_video "posix" ffmpeg_ok probed
                "in.mp4" "out.mp4" "medium" (Some 10) world0).1 = Ok s)
    by (vm_compute; eexists; reflexivity).
  destruct H as [s Hs]. exists s.
  destruct (compress_video_returns_output_size "posix" ffmpeg_ok probed
              "in.mp4" "out.mp4" "medium" (Some 10) world0 s Hs)
    as (n & Hn & Hsz).
  exists n. split; [exact Hs|]. split; [exact Hn|exact Hsz].
Defined.


(** Without a target, and with an encoder whose single pass fails. *)
Lemma first_run_failure_ends_job_witness :
  let argv := cmd_one_pass "in.mp4" "out.mp4" "scale=-2:720" 3000 96 "slow" in
  let r := compress_video "posix" ffmpeg_pass2_fails probed
             "in.mp4" "out.mp4" "medium" None world0 in
  runs (new_events world0 r.2) = [argv]
  /\ (ffmpeg_pass2_fails argv (fs world0)).1 <> 0
  /\ r.1 = Raise (CalledProcessError
                    (ffmpeg_pass2_fails argv (fs world0)).1 argv)
  /\ fs r.2 = (ffmpeg_pass2_fails argv (fs world0)).2.
Proof.
  intros argv r.
  assert (H1 : runs (new_events world0 r.2) = [argv])
    by (vm_compute; reflexivity).
  assert (H2 : (ffmpeg_pass2_fails argv (fs world0)).1 <> 0)
    by (vm_compute; discriminate).
  split; [exact H1|]. split; [exact H2|].
  exact (proj2 (first_run_failure_ends_job "posix" ffmpeg_pass2_fails probed
                  "in.mp4" "out.mp4" "medium" None world0 argv [] H1 H2)).
Defined.

(** The two-pass run towards 10 MB, with the encoder that succeeds. *)
Lemma two_pass_return_cleans_witness :
  let a1 := cmd_pass1 "posix" "in.mp4" "scale=-2:720" 723 "slow" in
  let a2 := cmd_pass2 "in.mp4" "out.mp4" "scale=-2:720" 723 96 "slow" in
  let r := compress_video "posix" ffmpeg_ok probed
             "in.mp4" "out.mp4" "medium" (Some 10) world0 in
  runs (new_events world0 r.2) = [a1; a2]
  /\ exists s,
       r.1 = Ok s
       /\ forall q,
            fs r.2 !! q
            = if decide (q ∈ logfiles) then None
              else (ffmpeg_ok a2 (ffmpeg_ok a1 (fs world0)).2).2 !! q.
Proof.
  intros a1 a2 r.
  assert (H1 : runs (new_events world0 r.2) = [a1; a2])
    by (vm_compute; reflexivity).
  assert (H2 : exists s, r.1 = Ok s) by (vm_compute; eexists; reflexivity).
  split; [exact H1|]. destruct H2 as [s Hs]. exists s.
  split; [exact Hs|].
  exact (two_pass_return_cleans "posix" ffmpeg_ok probed
           "in.mp4" "out.mp4" "medium" (Some 10) world0 a1 a2 s H1 Hs).
Defined.

(** The same run with the encoder whose second pass fails. *)
Lemma second_pass_failure_raises_witness :
  let a1 := cmd_pass1 "posix" "in.mp4" "scale=-2:720" 723 "slow" in
  let a2 := cmd_pass2 "in.mp4" "out.mp4" "scale=-2:720" 723 96 "slow" in
  let r := compress_video "posix" ffmpeg_pass2_fails probed
             "in.mp4" "out.mp4" "medium" (Some 10) world0 in
  let r2 := ffmpeg_pass2_fails a2 (ffmpeg_pass2_fails a1 (fs world0)).2 in
  runs (new_events world0 r.2) = [a1; a2]
  /\ r2.1 <> 0
  /\ r.1 = Raise (CalledProcessError r2.1 a2)
  /\ fs r.2 = r2.2.
Proof.
  intros a1 a2 r r2.
  assert (H1 : runs (new_events world0 r.2) = [a1; a2])
    by (vm_compute; reflexivity).
  assert (H2 : r2.1 <> 0) by (vm_compute; discriminate).
  split; [exact H1|]. split; [exact H2|].
  exact (second_pass_failure_raises "posix" ffmpeg_pass2_fails probed
           "in.mp4" "out.mp4" "medium" (Some 10) world0 a1 a2 H1 H2).
Defined.

Lemma unknown_preset_touches_nothing_witness :
  ("ultra" ∉ Presets.known_presets)
  /\ compress_video "posix" ffmpeg_ok probed
       "in.mp4" "out.mp4" "ultra" (Some 10) world0
     = (Raise (KeyError "Unknown preset: ultra. Available: ['light', 'medium', 'strong']"),
        world0).
Proof.
  assert (H : "ultra" ∉ Presets.known_presets).
  { intros Hin. apply list_elem_of_In in Hin. cbn in Hin.
    repeat (destruct Hin as [Hin|Hin]; [discriminate|]). exact Hin. }
  split; [exact H|].
  exact (unknown_preset_touches_nothing "posix" ffmpeg_ok probed
           "in.mp4" "out.mp4" "ultra" (Some 10) world0 H).
Defined.

(** A file that the prober describes and that is not there. *)
Lemma probe_failure_touches_nothing_witness :
  Presets.get_preset "medium" = Ok medium
  /\ compress_video "posix" ffmpeg_ok probed
       "gone.mp4" "out.mp4" "medium" None world0
     = (Raise (FileNotFoundError "gone.mp4"), world0).
Proof.
  assert (H : Presets.get_preset "medium" = Ok medium) by reflexivity.
  split; [exact H|].
  destruct (probe_failure_touches_nothing "posix" ffmpeg_ok probed
              "gone.mp4" "out.mp4" "medium" None world0 medium H)
    as (_ & _ & H3).
  apply (H3 (probe_of (Some 4000000))).
  - reflexivity.
  - right. left. reflexivity.
  - vm_compute. reflexivity.
Defined.

(** A probe without a bit rate. *)
Lemma unknown_bitrate_encodes_at_1200_witness :
  Presets.get_preset "medium" = Ok medium
  /\ ffprobe_of None "in.mp4" (fs world0) = Ok (probe_of None)
  /\ format_bit_rate (probe_of None) = None
  /\ (get_video_info (ffprobe_of None) "in.mp4" world0).1
     = Ok (1920, 1080, f100, 0, f20)
  /\ new_events world0
       (compress_video "posix" ffmpeg_ok (ffprobe_of None)
          "in.mp4" "out.mp4" "medium" None world0).2
     = [EvRun (cmd_one_pass "in.mp4" "out.mp4"
                 ("scale=-2:" +:+ PyStr.of_int (Presets.max_height medium))
                 1200 96 (Presets.preset medium))].
Proof.
  assert (H1 : Presets.get_preset "medium" = Ok medium) by reflexivity.
  assert (H2 : ffprobe_of None "in.mp4" (fs world0) = Ok (probe_of None))
    by reflexivity.
  assert (H3 : format_bit_rate (probe_of None) = None) by reflexivity.
  assert (H4 : (get_video_info (ffprobe_of None) "in.mp4" world0).1
               = Ok (1920, 1080, f100, 0, f20))
    by (vm_compute; reflexivity).
  split; [exact H1|]. split; [exact H2|]. split; [exact H3|].
  split; [exact H4|].
  exact (proj2 (unknown_bitrate_encodes_at_1200 "posix" ffmpeg_ok
                  (ffprobe_of None) "in.mp4" "out.mp4" "medium" world0
                  medium (probe_of None) 1920 1080 f100 0 f20
                  H1 H2 (or_introl H3) H4)).
Defined.

(** The source at 4000 kbit/s under [strong]: one pass at 2000. *)
Lemma strong_preset_halves_witness :
  (get_video_info probed "in.mp4" world0).1
    = Ok (1920, 1080, f100, 4000, f20)
  /\ 0 < 4000 <= 2 ^ 53
  /\ events_of 4000000 "strong" None
     = [EvRun (cmd_one_pass "in.mp4" "out.mp4" "scale=-2:480"
                 (Z.max (4000 / 2) 350) 96 "medium")].
Proof.
  assert (H2 : (get_video_info probed "in.mp4" world0).1
               = Ok (1920, 1080, f100, 4000, f20))
    by (vm_compute; reflexivity).
  assert (H3 : 0 < 4000 <= 2 ^ 53) by (split; reflexivity || discriminate).
  split; [exact H2|]. split; [exact H3|].
  exact (strong_preset_halves "posix" ffmpeg_ok probed
           "in.mp4" "out.mp4" world0 1920 1080 f100 4000 f20 H2 H3).
Defined.

(** The same source under [medium]: one pass at 3000. *)
Lemma medium_preset_three_quarters_witness :
  (get_video_info probed "in.mp4" world0).1
    = Ok (1920, 1080, f100, 4000, f20)
  /\ 0 < 4000 < 2 ^ 51
  /\ events_of 4000000 "medium" None
     = [EvRun (cmd_one_pass "in.mp4" "out.mp4" "scale=-2:720"
                 (Z.max (3 * 4000 / 4) 350) 96 "slow")].
Proof.
  assert (H2 : (get_video_info probed "in.mp4" world0).1
               = Ok (1920, 1080, f100, 4000, f20))
    by (vm_compute; reflexivity).
  assert (H3 : 0 < 4000 < 2 ^ 51) by (split; reflexivity).
  split; [exact H2|]. split; [exact H3|].
  exact (medium_preset_three_quarters "posix" ffmpeg_ok probed
           "in.mp4" "out.mp4" world0 1920 1080 f100 4000 f20 H2 H3).
Defined.

(** A target of -5 MB for the clip of 100 s. *)
Lemma negative_target_gives_floor_witness :
  -5 < 0
  /\ float_positive f100
  /\ exists v, target_video_kbps (-5) f100 96 = Ok v /\ v = 300.
Proof.
  assert (H1 : -5 < 0) by reflexivity.
  assert (H2 : float_positive f100) by exact I.
  assert (H3 : exists v, target_video_kbps (-5) f100 96 = Ok v)
    by (vm_compute; eexists; reflexivity).
  split; [exact H1|]. split; [exact H2|].
  destruct H3 as [v Hv]. exists v. split; [exact Hv|].
  exact (negative_target_gives_floor (-5) f100 v H1 H2 Hv).
Defined.


(** A change to [strong] before the file is chosen. *)
Lemma set_preset_governs_next_job_witness :
  "in.mp4" <> ""
  /\ exists a' out,
       Gui.choose_file "posix" (fs world0) "in.mp4"
         (Gui.set_preset "strong" (app0 "10")) = Some a'
       /\ Gui.task_queue a'
          = Gui.task_queue (app0 "10")
            ++ [("in.mp4", out, "strong", (Gui.get_target_mb (app0 "10")).1)]
       /\ Gui.current_preset a' = "strong".
Proof.
  assert (H : "in.mp4" <> "") by discriminate.
  split; [exact H|].
  exact (set_preset_governs_next_job "posix" (fs world0) "strong" "in.mp4"
           (app0 "10") H).
Defined.

End FurtherConcrete.

Section FurtherPoolConcrete.
Import Gui Scenario.

(** One job, put on the queue, taken by the first worker and finished. *)
Lemma job0_run :
  exists p,
    nsteps pool_step 3 (start_workers 2 (app0 "10") [job0]) p /\ drained p.
Proof.
  eexists. split.
  - eapply nsteps_l; [eapply step_put; reflexivity|].
    eapply nsteps_l; [eapply (step_get _ _ _ 0%nat); reflexivity|].
    eapply nsteps_l;
      [eapply (step_done _ _ _ 0%nat _ world0); reflexivity|].
    apply nsteps_O.
  - vm_compute. repeat split.
Qed.



Lemma task_done_never_underflows_witness :
  exists p,
    nsteps pool_step 3 (start_workers 2 (app0 "10") [job0]) p
    /\ unfinished_tasks p
       = (length (task_queue (app p)) + length (running p))%nat
    /\ (length (running p) <= 2)%nat.
Proof.
  destruct job0_run as (p & Hp & _). exists p. split; [exact Hp|].
  destruct (task_done_never_underflows "posix" ffmpeg_ok
              (ffprobe_of (Some 4000000)) 2 (app0 "10") [job0] 3 p Hp)
    as (H1 & H2 & _).
  split; [exact H1|exact H2].
Defined.

End FurtherPoolConcrete.
